(** * A read-only SQLite page reader: shallow embedding of [src/SQLite.js]

    The JavaScript program opens a database file, reads the 100-byte file
    header, decodes the catalog on page 1, and answers [.dbinfo], [.tables]
    and single-table [SELECT] commands by a full scan of the table B-tree.

    Conventions of the embedding.
    - A [Buffer] is a list of bytes.  The Buffer reads of the runtime
      ([readInt8], [readUInt16BE], ...) throw a [RangeError] outside the
      buffer; [subarray] clamps its indices instead.
    - A JavaScript [throw] is the [Throw] branch of the [result] monad.
    - JavaScript numbers only occur as integers here (offsets, lengths, page
      numbers, decoded integers); they are modelled as [Z], without the
      rounding of the runtime above 2^53.
    - A JavaScript string is the list of its UTF-16 code units.
    - A [Map] from column names to values is a [gmap]. *)

From Stdlib Require Import ZArith List Lia Ascii String DecimalString.
From Stdlib Require Import Init.Byte.
From stdpp Require Import base option list gmap fin_maps sorting.

Local Open Scope Z_scope.

(** ** Runtime values *)

Abbreviation Buffer := (list byte).

(** A string of the runtime: UTF-16 code units. *)
Abbreviation JSString := (list Z).

(** The code units of an ASCII literal of the source text. *)
Definition js (s : string) : JSString :=
  map (fun a => Z.of_N (N_of_ascii a)) (list_ascii_of_string s).

(** The values that occur as column values, row ids and query literals. *)
Inductive Value :=
| VUndefined
| VNull
| VNumber (n : Z)
| VBigInt (n : Z)
| VString (s : JSString)
| VBuffer (b : Buffer).

(** The exceptions of the program.  The template strings of the source are
    kept as a tag and the interpolated value:
    [InvalidPageType t] is [new Error(`invalid page type: ${t}`)],
    [UnknownSerialType t] is [new Error(`Unknown serial type: ${t}`)],
    [UnknownPageType t] is [new Error(`Unknown page type: ${t}`)],
    [TableNotFound n] is [new Error(`Table ${n} not found`)];
    [RangeError] is thrown by a Buffer read outside the buffer,
    [TypeError] by the runtime (a method call on [undefined], a path that
    is not a string, a BigInt mixed with a number),
    [IOError] by [open], [read] and [close] of the file system. *)
Inductive JSError :=
| RangeError
| TypeError
| IOError (code : Z)
| InvalidPageType (pageType : Z)
| UnknownSerialType (serialType : Value)
| UnknownPageType (pageType : Z)
| TableNotFound (name : JSString).

Inductive result (A : Type) :=
| Ok (a : A)
| Throw (e : JSError).
Arguments Ok {A} a.
Arguments Throw {A} e.

Definition bind {A B} (m : result A) (k : A -> result B) : result B :=
  match m with
  | Ok a => k a
  | Throw e => Throw e
  end.

Notation "'let*' x ':=' m 'in' k" := (bind m (fun x => k))
  (at level 10, x pattern, m at level 100, k at level 200).

(** ** Buffer primitives of the runtime *)

Definition byteZ (b : byte) : Z := Z.of_N (Byte.to_N b).

(** Big-endian value of a byte sequence. *)
Definition beValue (bytes : list byte) : Z :=
  fold_left (fun acc b => acc * 256 + byteZ b) bytes 0.

Definition blen (buffer : Buffer) : Z := Z.of_nat (length buffer).

Definition inBounds (buffer : Buffer) (offset : Z) (byteLength : nat) : bool :=
  (0 <=? offset) && (offset + Z.of_nat byteLength <=? blen buffer).

(** [buffer.readUIntBE(offset, byteLength)] *)
Definition readUIntBE (buffer : Buffer) (offset : Z) (byteLength : nat) : result Z :=
  if inBounds buffer offset byteLength
  then Ok (beValue (take byteLength (drop (Z.to_nat offset) buffer)))
  else Throw RangeError.

Definition readUInt16BE (buffer : Buffer) (offset : Z) : result Z :=
  readUIntBE buffer offset 2.

Definition readUInt32BE (buffer : Buffer) (offset : Z) : result Z :=
  readUIntBE buffer offset 4.

Definition readBigUInt64BE (buffer : Buffer) (offset : Z) : result Z :=
  readUIntBE buffer offset 8.

(** [buffer.readInt8(offset)]: the byte as a two's complement number. *)
Definition readInt8 (buffer : Buffer) (offset : Z) : result Z :=
  let* v := readUIntBE buffer offset 1 in
  Ok (if v <? 128 then v else v - 256).

(** Index clamping of [TypedArray.prototype.subarray]: a negative index counts
    from the end. *)
Definition clampIndex (len i : Z) : Z :=
  if i <? 0 then Z.max (len + i) 0 else Z.min i len.

(** [buffer.subarray(start, end)] *)
Definition subarray (buffer : Buffer) (start end_ : Z) : Buffer :=
  let s := clampIndex (blen buffer) start in
  let e := clampIndex (blen buffer) end_ in
  take (Z.to_nat (e - s)) (drop (Z.to_nat s) buffer).

(** *** [buffer.toString('utf8')]

    The decoder of the runtime: a maximal ill-formed prefix of a sequence is
    replaced by U+FFFD, and the offending byte is decoded again as the start
    of a new sequence. *)

Record Utf8State := mkUtf8 {
  u_cp : Z;        (* code point under construction *)
  u_needed : Z;    (* continuation bytes still expected *)
  u_lower : Z;     (* admissible range of the next continuation byte *)
  u_upper : Z
}.

Definition utf8Init : Utf8State := mkUtf8 0 0 128 191.

Definition inRange (lo hi b : Z) : bool := (lo <=? b) && (b <=? hi).

(** A byte read when no sequence is open. *)
Definition utf8Lead (b : Z) : list Z * Utf8State :=
  if b <=? 127 then ([b], utf8Init)
  else if inRange 194 223 b then ([], mkUtf8 (Z.land b 31) 1 128 191)
  else if inRange 224 239 b then
    ([], mkUtf8 (Z.land b 15) 2 (if b =? 224 then 160 else 128)
                                (if b =? 237 then 159 else 191))
  else if inRange 240 244 b then
    ([], mkUtf8 (Z.land b 7) 3 (if b =? 240 then 144 else 128)
                               (if b =? 244 then 143 else 191))
  else ([65533], utf8Init).

Definition utf8Step (st : Utf8State) (b : Z) : list Z * Utf8State :=
  if u_needed st =? 0 then utf8Lead b
  else if inRange (u_lower st) (u_upper st) b then
    let cp := u_cp st * 64 + Z.land b 63 in
    if u_needed st =? 1 then ([cp], utf8Init)
    else ([], mkUtf8 cp (u_needed st - 1) 128 191)
  else
    let '(out, st') := utf8Lead b in (65533 :: out, st').

Fixpoint utf8CodePoints (st : Utf8State) (bytes : list byte) : list Z :=
  match bytes with
  | [] => if u_needed st =? 0 then [] else [65533]
  | b :: rest =>
      let '(out, st') := utf8Step st (byteZ b) in
      out ++ utf8CodePoints st' rest
  end.

(** UTF-16 code units of a code point. *)
Definition utf16Units (cp : Z) : list Z :=
  if cp <? 65536 then [cp]
  else [55296 + (cp - 65536) / 1024; 56320 + (cp - 65536) mod 1024].

Definition toStringUtf8 (buffer : Buffer) : JSString :=
  concat (map utf16Units (utf8CodePoints utf8Init buffer)).

(** ** [getPageHeaderSize] *)

Definition getPageHeaderSize (pageType : Z) : result Z :=
  if (pageType =? 13) || (pageType =? 10) then Ok 8
  else if (pageType =? 2) || (pageType =? 5) then Ok 12
  else Throw (InvalidPageType pageType).

(** ** [readValue] *)

(** [array.includes(x)] on an array of numbers. *)
Definition includes (l : list Z) (x : Z) : bool :=
  existsb (Z.eqb x) l.

(** The source yields [{ value, newCursor }]; the pair keeps that order. *)
Definition readValue (buffer : Buffer) (cursor serialType : Z) : result (Value * Z) :=
  if includes [0; 8; 9; 12; 13] serialType then Ok (VNull, cursor)
  else if serialType >? 12 then
    let dataTypeSize :=
      (serialType - (if Z.rem serialType 2 =? 0 then 12 else 13)) / 2 in
    let value := subarray buffer cursor (cursor + dataTypeSize) in
    let newCursor := cursor + dataTypeSize in
    if Z.rem serialType 2 =? 0 then Ok (VBuffer value, newCursor)
    else Ok (VString (toStringUtf8 value), newCursor)
  else if serialType =? 1 then
    let* v := readInt8 buffer cursor in Ok (VNumber v, cursor + 1)
  else if serialType =? 2 then
    let* v := readUInt16BE buffer cursor in Ok (VNumber v, cursor + 2)
  else if serialType =? 3 then
    let* v := readUIntBE buffer cursor 3 in Ok (VNumber v, cursor + 3)
  else if serialType =? 4 then
    let* v := readUInt32BE buffer cursor in Ok (VNumber v, cursor + 4)
  else if serialType =? 5 then
    let* v := readUIntBE buffer cursor 6 in Ok (VNumber v, cursor + 6)
  else if includes [6; 7] serialType then
    let* v := readBigUInt64BE buffer cursor in Ok (VBigInt v, cursor + 8)
  else Throw (UnknownSerialType (VNumber serialType)).

(** ** [readVarInt] *)

(** Modelled from the spec: [readVarInt] of [src/varint.js], which is not
    among the sources.  Section 4.1: up to 9 bytes; in the first 8 bytes the
    high bit marks continuation and the low 7 bits are data, most significant
    byte first; when all 8 have their continuation bit set a 9th byte
    contributes its full 8 bits; it fails only on a read outside the buffer.
    The result is [(value, bytesRead)]. *)
Fixpoint varIntLoop (n : nat) (buffer : Buffer) (offset acc bytesRead : Z)
  : result (Z * Z) :=
  let* b := readUIntBE buffer offset 1 in
  match n with
  | O => Ok (acc * 256 + b, bytesRead + 1)
  | S n' =>
      let acc' := acc * 128 + Z.land b 127 in
      if b <? 128 then Ok (acc', bytesRead + 1)
      else varIntLoop n' buffer (offset + 1) acc' (bytesRead + 1)
  end.

Definition readVarInt (buffer : Buffer) (offset : Z) : result (Z * Z) :=
  varIntLoop 8 buffer offset 0 0.

(** ** Records and rows *)

Abbreviation Row := (gmap JSString Value).

(** [map.get(key)]: [undefined] for a key that is not set. *)
Definition mapGet (m : Row) (key : JSString) : Value :=
  default VUndefined (m !! key).

(** First loop of [parseRecord]: one serial type per column. *)
Fixpoint readSerialTypes (buffer : Buffer) (columns : list JSString)
    (cursor : Z) (serialType : gmap JSString Z)
  : result (Z * gmap JSString Z) :=
  match columns with
  | [] => Ok (cursor, serialType)
  | column :: rest =>
      let* (value, bytesRead) := readVarInt buffer cursor in
      readSerialTypes buffer rest (cursor + bytesRead) (<[column := value]> serialType)
  end.

(** Second loop of [parseRecord]: one value per column.  Every column was
    set by the first loop, so [serialType.get(column)] is a number; on
    [undefined] [readValue] would fall through to its last line. *)
Fixpoint readValues (buffer : Buffer) (columns : list JSString)
    (cursor : Z) (serialType : gmap JSString Z) (record : Row) : result Row :=
  match columns with
  | [] => Ok record
  | column :: rest =>
      match serialType !! column with
      | Some t =>
          let* (value, newCursor) := readValue buffer cursor t in
          readValues buffer rest newCursor serialType (<[column := value]> record)
      | None => Throw (UnknownSerialType VUndefined)
      end
  end.

Definition parseRecord (buffer : Buffer) (columns : list JSString) : result Row :=
  let* (_, bytesRead) := readVarInt buffer 0 in
  let* (cursor, serialType) := readSerialTypes buffer columns bytesRead ∅ in
  readValues buffer columns cursor serialType ∅.

Definition parseTableSchema (buffer : Buffer) : result Row :=
  parseRecord buffer
    [js "schemaType"; js "schemaName"; js "tableName"; js "rootPage"; js "schemaBody"].

(** ** [readCell]: yields [(record, rowId)] *)

Definition readCell (pageType : Z) (buffer : Buffer) (cellPointer : Z)
  : result (Buffer * Value) :=
  let* (recordSize, bytesRead) := readVarInt buffer cellPointer in
  let cursor := cellPointer + bytesRead in
  let* (rowId, cursor) :=
    if (pageType =? 13) || (pageType =? 5) then
      let* (value, rowIdBytesRead) := readVarInt buffer cursor in
      Ok (VNumber value, cursor + rowIdBytesRead)
    else Ok (VUndefined, cursor) in
  let startOfRecord := cursor in
  let endOfRecord := startOfRecord + recordSize in
  Ok (subarray buffer startOfRecord endOfRecord, rowId).

(** ** [applyFilter] *)

(** A literal of a where clause: a primitive value. *)
Inductive Literal :=
| LUndefined
| LNull
| LNumber (n : Z)
| LBigInt (n : Z)
| LString (s : JSString).

(** [value === literal].  A Buffer is an object and is never identical to a
    primitive. *)
Definition strictEq (v : Value) (l : Literal) : bool :=
  match v, l with
  | VUndefined, LUndefined => true
  | VNull, LNull => true
  | VNumber a, LNumber b => a =? b
  | VBigInt a, LBigInt b => a =? b
  | VString a, LString b => bool_decide (a = b)
  | _, _ => false
  end.

Definition applyFilter (rows : list Row) (whereClause : list (JSString * Literal))
  : list Row :=
  match whereClause with
  | [] => rows
  | (filterColumn, filterValue) :: _ =>
      List.filter (fun row => strictEq (mapGet row filterColumn) filterValue) rows
  end.

(** ** Pages *)

(** [if (identityColumn)]: a name that is set and not the empty string. *)
Definition truthy (identityColumn : option JSString) : bool :=
  match identityColumn with
  | Some (_ :: _) => true
  | _ => false
  end.

(** The loop of [parseTableLeafPage]; [n] cells are left to read. *)
Fixpoint leafLoop (n : nat) (pageType : Z) (buffer : Buffer)
    (columns : list JSString) (identityColumn : option JSString)
    (cursor : Z) (rows : list Row) : result (list Row) :=
  match n with
  | O => Ok rows
  | S n' =>
      let* cellPointer := readUInt16BE buffer cursor in
      let* (record, rowId) := readCell pageType buffer cellPointer in
      let* row := parseRecord record columns in
      let row :=
        match identityColumn with
        | Some c => if truthy identityColumn then <[c := rowId]> row else row
        | None => row
        end in
      leafLoop n' pageType buffer columns identityColumn (cursor + 2) (rows ++ [row])
  end.

Definition parseTableLeafPage (pageType numberOfCells : Z) (buffer : Buffer)
    (columns : list JSString) (identityColumn : option JSString)
  : result (list Row) :=
  let* cursor := getPageHeaderSize pageType in
  leafLoop (Z.to_nat numberOfCells) pageType buffer columns identityColumn cursor [].

(** The loop of [parseTableInteriorPage]. *)
Fixpoint interiorLoop (n : nat) (buffer : Buffer) (cursor : Z)
    (childPointers : list Z) : result (list Z) :=
  match n with
  | O => Ok childPointers
  | S n' =>
      let* cellPointer := readUInt16BE buffer cursor in
      let* childPointer := readUInt32BE buffer cellPointer in
      interiorLoop n' buffer (cursor + 2) (childPointers ++ [childPointer])
  end.

Definition parseTableInteriorPage (pageType numberOfCells : Z) (buffer : Buffer)
  : result (list Z) :=
  let* cursor := getPageHeaderSize pageType in
  interiorLoop (Z.to_nat numberOfCells) buffer cursor [].

(** ** The file *)

(** An open file.  [fh_read length position] is the buffer that
    [fileHandle.read({ length, position, buffer: Buffer.alloc(length) })]
    resolves to, or the error it rejects with: the file is opened read-only
    and every read is a positioned read, so the result depends on the
    length and the position only.  [fh_close] is the result of
    [fileHandle.close()]. *)
Record FileHandle := mkFile {
  fh_read : Z -> Z -> result Buffer;
  fh_close : result unit
}.

(** The page header fields read at the top of [readTableRows], in the order
    of the source: [(pageType, numberOfCells, rightMostPointer)].  Each read
    throws outside the buffer. *)
Definition readPageHeader (buffer : Buffer) : result (Z * Z * option Z) :=
  let* pageType := readInt8 buffer 0 in
  let* startOfFreeBlock := readUInt16BE buffer 1 in
  let* numberOfCells := readUInt16BE buffer 3 in
  let* startOfCellContentArea := readUInt16BE buffer 5 in
  let* rightMostPointer :=
    if (pageType =? 2) || (pageType =? 5)
    then let* p := readUInt32BE buffer 8 in Ok (Some p)
    else Ok None in
  Ok (pageType, numberOfCells, rightMostPointer).

(** The [for ... of childPointers] loop of [readTableRows]: [scan] is the
    recursive call; [None] when a call does not return. *)
Fixpoint scanChildren (scan : Z -> option (result (list Row)))
    (childPointers : list Z) (rows : list Row) : option (result (list Row)) :=
  match childPointers with
  | [] => Some (Ok rows)
  | childPointer :: rest =>
      match scan childPointer with
      | None => None
      | Some (Throw e) => Some (Throw e)
      | Some (Ok childRows) => scanChildren scan rest (rows ++ childRows)
      end
  end.

(** [readTableRows]: the recursion follows page numbers of the file, so it
    is bounded by [fuel]; [None] means that the fuel ran out. *)
Fixpoint readTableRows (fuel : nat) (fileHandle : FileHandle) (page pageSize : Z)
    (columns : list JSString) (identityColumn : option JSString)
  : option (result (list Row)) :=
  match fuel with
  | O => None
  | S fuel' =>
      let offset := (page - 1) * pageSize in
      match (let* buffer := fh_read fileHandle pageSize offset in
             let* header := readPageHeader buffer in
             Ok (buffer, header)) with
      | Throw e => Some (Throw e)
      | Ok (buffer, (pageType, numberOfCells, rightMostPointer)) =>
          if pageType =? 13 then
            Some (parseTableLeafPage pageType numberOfCells buffer columns identityColumn)
          else if pageType =? 5 then
            match parseTableInteriorPage pageType numberOfCells buffer with
            | Throw e => Some (Throw e)
            | Ok childPointers =>
                scanChildren
                  (fun childPointer =>
                     readTableRows fuel' fileHandle childPointer pageSize
                       columns identityColumn)
                  childPointers []
            end
          else Some (Throw (UnknownPageType pageType))
      end
  end.

(** A file with the given content: a positioned read copies the bytes that
    the file has from [position] on into a zero-filled buffer of [length]
    bytes. *)
Definition fileOf (content : list byte) : FileHandle :=
  {| fh_read length position :=
       if (0 <=? position) && (0 <=? length) then
         let bytes := take (Z.to_nat length) (drop (Z.to_nat position) content) in
         Ok (bytes ++ replicate (Z.to_nat length - List.length bytes) x00)
       else Throw (IOError 22);
     fh_close := Ok tt |}.

(** Strict equality of a value and a literal, as a relation: the same type
    and the same contents, no coercion. *)
Inductive StrictlyEqual : Value -> Literal -> Prop :=
| SE_undefined : StrictlyEqual VUndefined LUndefined
| SE_null : StrictlyEqual VNull LNull
| SE_number n : StrictlyEqual (VNumber n) (LNumber n)
| SE_bigint n : StrictlyEqual (VBigInt n) (LBigInt n)
| SE_string s : StrictlyEqual (VString s) (LString s).

#[global] Instance StrictlyEqual_dec (v : Value) (l : Literal) :
  Decision (StrictlyEqual v l).
Proof.
  refine (match v, l with
          | VUndefined, LUndefined => left SE_undefined
          | VNull, LNull => left SE_null
          | VNumber a, LNumber b => cast_if (decide (a = b))
          | VBigInt a, LBigInt b => cast_if (decide (a = b))
          | VString a, LString b => cast_if (decide (a = b))
          | _, _ => right _
          end);
    try (subst; constructor); inversion 1; congruence.
Defined.

(** ** The catalog and the table list *)

(** [readDatabaseHeader]: yields [(pageSize, numberOfPages)]. *)
Definition readDatabaseHeader (fileHandle : FileHandle) : result (Z * Z) :=
  let* buffer := fh_read fileHandle 100 0 in
  let* pageSize := readUInt16BE buffer 16 in
  let* numberOfPages := readUInt32BE buffer 28 in
  Ok (pageSize, numberOfPages).

(** The loop of [readTableSchemas]. *)
Fixpoint schemaLoop (n : nat) (pageType : Z) (buffer : Buffer) (cursor : Z)
    (tables : list Row) : result (list Row) :=
  match n with
  | O => Ok tables
  | S n' =>
      let* cellPointer := readUInt16BE buffer cursor in
      let* (record, _) := readCell pageType buffer cellPointer in
      let* table := parseTableSchema record in
      schemaLoop n' pageType buffer (cursor + 2) (tables ++ [table])
  end.

Definition readTableSchemas (fileHandle : FileHandle) (pageSize : Z)
  : result (list Row) :=
  let* buffer := fh_read fileHandle pageSize 0 in
  let offset := 100 in
  let* pageType := readInt8 buffer offset in
  let* numberOfCells := readUInt16BE buffer (3 + offset) in
  let* pageHeaderSize := getPageHeaderSize pageType in
  schemaLoop (Z.to_nat numberOfCells) pageType buffer (pageHeaderSize + offset) [].

(** Decimal digits of an integer. *)
Definition decimal (n : Z) : JSString :=
  js (NilZero.string_of_int (Z.to_int n)).

(** The conversion of a value to a string ([String(v)]); a Buffer converts
    by [toString()], which decodes UTF-8. *)
Definition toStringValue (v : Value) : JSString :=
  match v with
  | VUndefined => js "undefined"
  | VNull => js "null"
  | VNumber n => decimal n
  | VBigInt n => decimal n
  | VString s => s
  | VBuffer b => toStringUtf8 b
  end.

(** [a < b] on strings: the lexicographic order of the code units. *)
Fixpoint stringLt (a b : JSString) : bool :=
  match a, b with
  | _, [] => false
  | [], _ :: _ => true
  | x :: a', y :: b' =>
      if x <? y then true else if y <? x then false else stringLt a' b'
  end.

(** The default comparison of [array.sort()]: [sortLe x y] when [x] does
    not have to come after [y].  [undefined] comes last, everything else is
    compared as strings. *)
Definition sortLe (x y : Value) : bool :=
  match x, y with
  | _, VUndefined => true
  | VUndefined, _ => false
  | _, _ => negb (stringLt (toStringValue y) (toStringValue x))
  end.

Fixpoint insertSorted (x : Value) (l : list Value) : list Value :=
  match l with
  | [] => [x]
  | y :: l' => if sortLe x y then x :: l else y :: insertSorted x l'
  end.

(** [array.sort()]: the sort is stable, so its result is the one of the
    stable insertion sort. *)
Definition sort (l : list Value) : list Value :=
  foldr insertSorted [] l.

(** An element of [array.join(sep)]: empty for [undefined] and [null]. *)
Definition joinItem (v : Value) : JSString :=
  match v with
  | VUndefined | VNull => []
  | _ => toStringValue v
  end.

Fixpoint join (sep : JSString) (l : list Value) : JSString :=
  match l with
  | [] => []
  | [x] => joinItem x
  | x :: rest => joinItem x ++ sep ++ join sep rest
  end.

Definition filterAndFormatListOfTables (tables : list Row) : JSString :=
  join (js " ")
    (sort
       (List.filter
          (fun tableName => negb (strictEq tableName (LString (js "sqlite_sequence"))))
          (map (fun table => mapGet table (js "tableName")) tables))).

Definition projectTableRows (rows : list Row) (queryColumns : list JSString)
  : list JSString :=
  map (fun row => join (js "|") (map (fun queryColumn => mapGet row queryColumn) queryColumns))
      rows.

#[global] Instance byte_eq_decision : EqDecision byte := Byte.byte_eq_dec.

#[global] Instance Value_eq_decision : EqDecision Value.
Proof. solve_decision. Defined.

(** ** The commands *)

(** The query descriptor of [parseSelectCommand]. *)
Record Query := mkQuery {
  queryColumns : list JSString;
  queryTableName : JSString;
  whereClause : list (JSString * Literal)
}.

(** What a run of the program leaves behind: the lines of [console.log],
    the errors written to the error stream, and the exit status. *)
Record Process := mkProcess {
  stdout : list JSString;
  stderr : list JSError;
  exitCode : Z
}.

(** [command.toUpperCase().startsWith('SELECT')].  Besides the letters and
    their lower case, the long s (U+017F) has the upper case S, and the
    upper case of U+1E97 starts with T. *)
Definition startsWithSelect (command : JSString) : bool :=
  match command with
  | c0 :: c1 :: c2 :: c3 :: c4 :: c5 :: _ =>
      includes [83; 115; 383] c0 && includes [69; 101] c1
      && includes [76; 108] c2 && includes [69; 101] c3
      && includes [67; 99] c4 && includes [84; 116; 7831] c5
  | _ => false
  end.

Section Program.

(** [parseSelectCommand] and [parseColumns] of [src/sqlparser.js], which is
    not among the sources, are parameters; so is the conversion to a number
    that the runtime applies in [page - 1] to a root page that is a text, a
    blob or [undefined]. *)
Variable parseSelectCommand : JSString -> result Query.
Variable parseColumns : Value -> result (list JSString * option JSString).
Variable toNumber : Value -> result Z.

(** The page number that [readTableRows] computes with when it is given
    the catalog value [page]: in [page - 1], [null] counts as 0 and a BigInt
    cannot be mixed with a number. *)
Definition pageNumber (page : Value) : result Z :=
  match page with
  | VNumber n => Ok n
  | VNull => Ok 0
  | VBigInt _ => Throw TypeError
  | _ => toNumber page
  end.

(** [handleSelectCommand]: the lines it prints. *)
Definition handleSelectCommand (fuel : nat) (command : JSString)
    (fileHandle : FileHandle) (pageSize : Z) (tables : list Row)
  : option (result (list JSString)) :=
  match parseSelectCommand command with
  | Throw e => Some (Throw e)
  | Ok query =>
      match List.find
              (fun table =>
                 strictEq (mapGet table (js "tableName"))
                          (LString (queryTableName query)))
              tables with
      | None => Some (Throw (TableNotFound (queryTableName query)))
      | Some table =>
          match (let* (columns, identityColumn) :=
                   parseColumns (mapGet table (js "schemaBody")) in
                 let* page := pageNumber (mapGet table (js "rootPage")) in
                 Ok (columns, identityColumn, page)) with
          | Throw e => Some (Throw e)
          | Ok (columns, identityColumn, page) =>
              match readTableRows fuel fileHandle page pageSize columns identityColumn with
              | None => None
              | Some (Throw e) => Some (Throw e)
              | Some (Ok rows) =>
                  let filteredRows := applyFilter rows (whereClause query) in
                  match queryColumns query with
                  | first :: _ =>
                      if bool_decide (first = js "count(*)") then
                        Some (Ok [decimal (Z.of_nat (length filteredRows))])
                      else
                        let result := projectTableRows filteredRows (queryColumns query) in
                        Some (Ok [join [10] (map VString result)])
                  | [] =>
                      let result := projectTableRows filteredRows (queryColumns query) in
                      Some (Ok [join [10] (map VString result)])
                  end
              end
          end
      end
  end.

(** The body of the [try] block of [main] once the file is open. *)
Definition runCommand (fuel : nat) (fileHandle : FileHandle)
    (command : option JSString) : option (result (list JSString)) :=
  match (let* (pageSize, _) := readDatabaseHeader fileHandle in
         let* tables := readTableSchemas fileHandle pageSize in
         Ok (pageSize, tables)) with
  | Throw e => Some (Throw e)
  | Ok (pageSize, tables) =>
      match command with
      | None => Some (Throw TypeError)
      | Some command =>
          if bool_decide (command = js ".dbinfo") then
            Some (Ok [js "database page size: " ++ decimal pageSize;
                      js "number of tables: " ++ decimal (Z.of_nat (length tables))])
          else if bool_decide (command = js ".tables") then
            Some (Ok [filterAndFormatListOfTables tables])
          else if startsWithSelect command then
            handleSelectCommand fuel command fileHandle pageSize tables
          else Some (Ok [])
      end
  end.

(** [main].  [openFile] is [open] on the path of the database file in the
    working directory; [databaseFile] and [command] are [process.argv[2]]
    and [process.argv[3]], [None] when absent.  The [catch] block writes
    the error to the error stream; the [finally] block closes the handle if
    the file was opened, and an error of [close] is not caught by anything.
    Debug mode is off. *)
Definition main (fuel : nat) (openFile : JSString -> result FileHandle)
    (databaseFile command : option JSString) : option Process :=
  match (match databaseFile with
         | None => Throw TypeError
         | Some file => openFile file
         end) with
  | Throw e => Some (mkProcess [] [e] 0)
  | Ok fileHandle =>
      match runCommand fuel fileHandle command with
      | None => None
      | Some body =>
          let out := match body with Ok lines => lines | Throw _ => [] end in
          let err := match body with Ok _ => [] | Throw e => [e] end in
          match fh_close fileHandle with
          | Ok _ => Some (mkProcess out err 0)
          | Throw e => Some (mkProcess out (err ++ [e]) 1)
          end
      end
  end.


End Program.

(** ** Notions used to state the properties of the scan *)

(** The scan of [page] returns [rows]: some amount of fuel is enough. *)
Definition scans (fileHandle : FileHandle) (pageSize : Z)
    (columns : list JSString) (identityColumn : option JSString)
    (page : Z) (rows : list Row) : Prop :=
  exists fuel,
    readTableRows fuel fileHandle page pageSize columns identityColumn = Some (Ok rows).

(** [row] is the row of a cell of the leaf page [buffer]: the cell pointer
    read at [cursor] leads to a cell with row id [rowId], and [row] is the
    decoded record of the cell with the column [c] set to [rowId]. *)
Definition cellRow (columns : list JSString) (c : JSString) (buffer : Buffer)
    (cursor : Z) (rowId : Z) (row : Row) : Prop :=
  exists cellPointer record decoded,
    readUInt16BE buffer cursor = Ok cellPointer
    /\ readCell 13 buffer cellPointer = Ok (record, VNumber rowId)
    /\ parseRecord record columns = Ok decoded
    /\ row = <[c := VNumber rowId]> decoded.

(** Two page buffers that differ at most in the bytes 8 to 11, the
    right-most pointer of an interior page. *)
Definition sameButRightMost (b b' : Buffer) : Prop :=
  length b = length b'
  /\ forall i : nat, (i < 8 \/ 12 <= i)%nat -> b !! i = b' !! i.

(** The cells of an interior page lie behind its 12-byte header. *)
Definition cellsBehindHeader (b : Buffer) : Prop :=
  forall n i cellPointer,
    readUInt16BE b 3 = Ok n -> 0 <= i < n ->
    readUInt16BE b (12 + 2 * i) = Ok cellPointer -> 12 <= cellPointer.

(** Two files whose pages agree, except for the right-most pointer of
    interior table pages. *)
Definition sameFileButRightMost (pageSize : Z) (fh fh' : FileHandle) : Prop :=
  forall page,
    match fh_read fh pageSize ((page - 1) * pageSize),
          fh_read fh' pageSize ((page - 1) * pageSize) with
    | Ok b, Ok b' =>
        b = b' \/ (readInt8 b 0 = Ok 5 /\ sameButRightMost b b' /\ cellsBehindHeader b)
    | Throw e, Throw e' => e = e'
    | _, _ => False
    end.

(** ** A small database, built byte by byte

    Page size 512, four pages.  Page 1 is the catalog with one table
    [t(id integer primary key, v int)] rooted at page 2.  Page 2 is an
    interior table page with one cell (left child page 3, key 2) and the
    right-most pointer 4.  Page 3 is a leaf with the rows (1, 10) and
    (2, 20), page 4 a leaf with the rows (3, 30) and (4, 40). *)
Module Demo.

Definition bytesOf (l : list Z) : list byte :=
  map (fun z => default x00 (Byte.of_N (Z.to_N z))) l.

Definition ascii (s : string) : list byte :=
  map byte_of_ascii (list_ascii_of_string s).

Definition u16 (n : Z) : list byte := bytesOf [n / 256; n mod 256].

Definition u32 (n : Z) : list byte :=
  bytesOf [n / 16777216; (n / 65536) mod 256; (n / 256) mod 256; n mod 256].

Definition zeros (n : Z) : list byte := replicate (Z.to_nat n) x00.

Fixpoint cellOffsets (start : Z) (cells : list (list byte)) : list Z :=
  match cells with
  | [] => []
  | c :: rest => start :: cellOffsets (start + blen c) rest
  end.

(** A page of [size] bytes: what precedes the page header, the page header
    without its cell count and content start, the cell pointer array, and
    the cells at the end of the page. *)
Definition pageOf (size : Z) (reserved : list byte) (pageType : Z)
    (rightMost : list byte) (cells : list (list byte)) : list byte :=
  let body := concat cells in
  let start := size - blen body in
  let head :=
    reserved ++ bytesOf [pageType] ++ u16 0 ++ u16 (Z.of_nat (length cells))
    ++ u16 start ++ [x00] ++ rightMost
    ++ concat (map u16 (cellOffsets start cells)) in
  head ++ zeros (start - blen head) ++ body.

(** A leaf cell: record size, row id (both below 128), record. *)
Definition leafCell (rowId : Z) (record : list byte) : list byte :=
  bytesOf [blen record; rowId] ++ record.

(** Serial type of a text. *)
Definition textType (s : string) : Z := 13 + 2 * blen (ascii s).

Definition sql : string := "CREATE TABLE t(id integer primary key, v int)".

Definition catalogRecord : list byte :=
  bytesOf [6; textType "table"; textType "t"; textType "t"; 1; textType sql]
  ++ ascii "table" ++ ascii "t" ++ ascii "t" ++ bytesOf [2] ++ ascii sql.

Definition fileHeader : list byte :=
  ascii "SQLite format 3" ++ [x00] ++ u16 512 ++ zeros 10 ++ u32 4 ++ zeros 68.

(** A row of [t]: null for the alias column [id], a 1-byte integer [v]. *)
Definition rowRecord (v : Z) : list byte := bytesOf [3; 0; 1; v].

Definition page1 : list byte := pageOf 512 fileHeader 13 [] [leafCell 1 catalogRecord].
Definition page2 : list byte := pageOf 512 [] 5 (u32 4) [u32 3 ++ bytesOf [2]].
Definition page3 : list byte :=
  pageOf 512 [] 13 [] [leafCell 1 (rowRecord 10); leafCell 2 (rowRecord 20)].
Definition page4 : list byte :=
  pageOf 512 [] 13 [] [leafCell 3 (rowRecord 30); leafCell 4 (rowRecord 40)].

Definition database : list byte := page1 ++ page2 ++ page3 ++ page4.

Definition columns : list JSString := [js "id"; js "v"].

Definition row (id v : Z) : Row :=
  <[js "v" := VNumber v]> (<[js "id" := VNumber id]> ∅).

(** The same file with the right-most pointer of page 2 set to [p]. *)
Definition databaseWith (p : Z) : list byte :=
  page1 ++ pageOf 512 [] 5 (u32 p) [u32 3 ++ bytesOf [2]] ++ page3 ++ page4.

Definition interior3 : list byte :=
  pageOf 512 [] 5 (u32 6)
    [u32 3 ++ bytesOf [2]; u32 4 ++ bytesOf [4]; u32 5 ++ bytesOf [5]].


(** Stand-ins for the parsers of [src/sqlparser.js] on two commands. *)
Definition countFrom (table : string) : JSString :=
  js "SELECT count(*) FROM " ++ js table.

Definition parseSelectCommand (command : JSString) : result Query :=
  if bool_decide (command = countFrom "t")
  then Ok (mkQuery [js "count(*)"] (js "t") [])
  else if bool_decide (command = countFrom "missing")
  then Ok (mkQuery [js "count(*)"] (js "missing") [])
  else Throw TypeError.

Definition parseColumns (schemaBody : Value)
  : result (list JSString * option JSString) :=
  Ok (columns, Some (js "id")).

Definition toNumber (v : Value) : result Z := Throw TypeError.

Definition openFile (file : JSString) : result FileHandle :=
  if bool_decide (file = js "demo.db") then Ok (fileOf database)
  else Throw (IOError 2).

Definition run (databaseFile command : JSString) : option Process :=
  main parseSelectCommand parseColumns toNumber 3 openFile
    (Some databaseFile) (Some command).

End Demo.

(** ** Further files

    Variants of the small database: a table whose interior root lists
    itself as its child, a table rooted at an index leaf page, a table whose
    second child has the page type 7, and the small database behind a handle
    that cannot be closed. *)
Module Files.


Definition indexRoot : list byte :=
  Demo.page1 ++ Demo.pageOf 512 [] 10 [] [].


Definition stuck : FileHandle :=
  mkFile (fh_read (fileOf Demo.database)) (Throw (IOError 5)).

Definition openStuck (file : JSString) : result FileHandle := Ok stuck.

(** The catalog of the small database. *)
Definition demoTables : list Row :=
  match readTableSchemas (fileOf Demo.database) 512 with
  | Ok tables => tables
  | Throw _ => []
  end.

End Files.

(** * Properties *)

(** Decide the integer tests of the goal by arithmetic. *)
Ltac decide_tests :=
  repeat match goal with
    | |- context [Z.eqb ?a ?b] =>
        destruct (Z.eqb_spec a b); [try lia | try lia]; simpl
    | |- context [Z.gtb ?a ?b] =>
        destruct (Z.gtb_spec a b); [try lia | try lia]; simpl
    | |- context [Z.ltb ?a ?b] =>
        destruct (Z.ltb_spec a b); [try lia | try lia]; simpl
    | |- context [Z.leb ?a ?b] =>
        destruct (Z.leb_spec a b); [try lia | try lia]; simpl
    end.

(** ** Buffer reads *)

Lemma byteZ_range (b : byte) : 0 <= byteZ b < 256.
Proof.
  unfold byteZ. pose proof (Byte.to_N_bounded b) as H.
  split; [apply N2Z.is_nonneg | lia].
Qed.

Lemma readUIntBE_in (buffer : Buffer) (offset : Z) (n : nat) :
  0 <= offset -> offset + Z.of_nat n <= blen buffer ->
  readUIntBE buffer offset n = Ok (beValue (take n (drop (Z.to_nat offset) buffer))).
Proof.
  intros H0 H1. unfold readUIntBE, inBounds.
  destruct (Z.leb_spec 0 offset); [| lia].
  destruct (Z.leb_spec (offset + Z.of_nat n) (blen buffer)); [| lia].
  reflexivity.
Qed.

Lemma readUIntBE_out (buffer : Buffer) (offset : Z) (n : nat) :
  offset < 0 \/ blen buffer < offset + Z.of_nat n ->
  readUIntBE buffer offset n = Throw RangeError.
Proof.
  intros H. unfold readUIntBE, inBounds.
  destruct (Z.leb_spec 0 offset); simpl; [| reflexivity].
  destruct (Z.leb_spec (offset + Z.of_nat n) (blen buffer)); [lia | reflexivity].
Qed.

Lemma beValue_nonneg (bytes : list byte) : 0 <= beValue bytes.
Proof.
  unfold beValue.
  assert (H : forall acc, 0 <= acc ->
                0 <= fold_left (fun acc b => acc * 256 + byteZ b) bytes acc).
  { induction bytes as [| b rest IH]; intros acc Hacc; simpl; [exact Hacc |].
    apply IH. pose proof (byteZ_range b). lia. }
  apply H. lia.
Qed.

Lemma readUIntBE_nonneg (buffer : Buffer) (offset : Z) (n : nat) (v : Z) :
  readUIntBE buffer offset n = Ok v -> 0 <= v.
Proof.
  unfold readUIntBE. destruct (inBounds buffer offset n); [| discriminate].
  intros H. injection H as <-. apply beValue_nonneg.
Qed.

Lemma lookup_blen (buffer : Buffer) (i : nat) (b : byte) :
  buffer !! i = Some b -> Z.of_nat i + 1 <= blen buffer.
Proof. intros H. apply lookup_lt_Some in H. unfold blen. lia. Qed.

Lemma take1_drop (buffer : Buffer) (i : nat) (b : byte) :
  buffer !! i = Some b -> take 1 (drop i buffer) = [b].
Proof. intros H. rewrite (drop_S _ _ _ H). reflexivity. Qed.

Lemma take2_drop (buffer : Buffer) (i : nat) (b0 b1 : byte) :
  buffer !! i = Some b0 -> buffer !! S i = Some b1 ->
  take 2 (drop i buffer) = [b0; b1].
Proof.
  intros H0 H1. rewrite (drop_S _ _ _ H0), (drop_S _ _ _ H1). reflexivity.
Qed.

Lemma subarray_in (buffer : Buffer) (start size : Z) :
  0 <= start -> 0 <= size -> start + size <= blen buffer ->
  subarray buffer start (start + size)
  = take (Z.to_nat size) (drop (Z.to_nat start) buffer)
  /\ Z.of_nat (length (subarray buffer start (start + size))) = size.
Proof.
  intros Hs Hn Hb. unfold subarray, clampIndex.
  destruct (Z.ltb_spec start 0); [lia |].
  destruct (Z.ltb_spec (start + size) 0); [lia |].
  rewrite !Z.min_l by lia.
  replace (start + size - start) with size by lia.
  split; [reflexivity |].
  rewrite length_take, length_drop. unfold blen in Hb. lia.
Qed.

(** ** [getPageHeaderSize] *)

(** C5, as the code has it: the header size is 8 for the page types 13
    (0x0d) and 10 (0x0a), 12 for the page types 5 (0x05) and 2 (0x02), and
    every other page type throws the invalid-page-type error. *)
Theorem getPageHeaderSize_cases (pageType : Z) :
  (pageType = 13 \/ pageType = 10 -> getPageHeaderSize pageType = Ok 8)
  /\ (pageType = 5 \/ pageType = 2 -> getPageHeaderSize pageType = Ok 12)
  /\ (pageType <> 13 -> pageType <> 10 -> pageType <> 5 -> pageType <> 2 ->
      getPageHeaderSize pageType = Throw (InvalidPageType pageType)).
Proof.
  unfold getPageHeaderSize. repeat split.
  - intros [-> | ->]; reflexivity.
  - intros [-> | ->]; reflexivity.
  - intros H13 H10 H5 H2.
    destruct (Z.eqb_spec pageType 13); [contradiction |].
    destruct (Z.eqb_spec pageType 10); [contradiction |].
    destruct (Z.eqb_spec pageType 2); [contradiction |].
    destruct (Z.eqb_spec pageType 5); [contradiction |].
    reflexivity.
Qed.

Lemma getPageHeaderSize_cases_witness :
  getPageHeaderSize 13 = Ok 8
  /\ getPageHeaderSize 5 = Ok 12
  /\ getPageHeaderSize 7 = Throw (InvalidPageType 7).
Proof.
  destruct (getPageHeaderSize_cases 13) as [H13 _].
  destruct (getPageHeaderSize_cases 5) as [_ [H5 _]].
  destruct (getPageHeaderSize_cases 7) as [_ [_ H7]].
  split; [apply H13; left; reflexivity |].
  split; [apply H5; left; reflexivity |].
  apply H7; lia.
Defined.

(** The index page types do not fail: 0x0a has header size 8 and 0x02 has
    header size 12. *)
Lemma getPageHeaderSize_index_pages :
  getPageHeaderSize 10 = Ok 8 /\ getPageHeaderSize 2 = Ok 12
  /\ (forall e, getPageHeaderSize 10 <> Throw e)
  /\ (forall e, getPageHeaderSize 2 <> Throw e).
Proof. repeat split; intros; discriminate. Qed.

(** ** [readValue] *)

(** C4, as the code has it: with the bytes available at the cursor, serial
    type 1 yields the byte at the cursor as a signed 8-bit integer, and
    serial type 2 yields the two bytes at the cursor as an unsigned
    big-endian 16-bit integer. *)
Theorem readValue_int8_uint16 (buffer : Buffer) (cursor : Z) :
  0 <= cursor ->
  (forall b, buffer !! Z.to_nat cursor = Some b ->
     exists v, readValue buffer cursor 1 = Ok (VNumber v, cursor + 1)
               /\ -128 <= v < 128 /\ (v - byteZ b) mod 256 = 0)
  /\ (forall b0 b1,
        buffer !! Z.to_nat cursor = Some b0 ->
        buffer !! S (Z.to_nat cursor) = Some b1 ->
        readValue buffer cursor 2
        = Ok (VNumber (256 * byteZ b0 + byteZ b1), cursor + 2)
        /\ 0 <= 256 * byteZ b0 + byteZ b1 < 65536).
Proof.
  intros Hc. split.
  - intros b Hb. pose proof (lookup_blen _ _ _ Hb) as Hlen.
    pose proof (byteZ_range b) as Hr.
    unfold readValue, readInt8. simpl.
    rewrite readUIntBE_in by lia. rewrite (take1_drop _ _ _ Hb).
    replace (beValue [b]) with (byteZ b) by (unfold beValue; simpl; lia).
    simpl. destruct (Z.ltb_spec (byteZ b) 128).
    + exists (byteZ b). split; [reflexivity |]. split; [lia |].
      rewrite Z.sub_diag. reflexivity.
    + exists (byteZ b - 256). split; [reflexivity |]. split; [lia |].
      replace (byteZ b - 256 - byteZ b) with (-1 * 256) by lia.
      apply Z_mod_mult.
  - intros b0 b1 H0 H1. pose proof (lookup_blen _ _ _ H1) as Hlen.
    pose proof (byteZ_range b0). pose proof (byteZ_range b1).
    split; [| lia].
    unfold readValue, readUInt16BE. simpl.
    rewrite readUIntBE_in by lia. rewrite (take2_drop _ _ _ _ H0 H1).
    replace (beValue [b0; b1]) with (256 * byteZ b0 + byteZ b1)
      by (unfold beValue; simpl; lia).
    reflexivity.
Qed.

Lemma readValue_int8_uint16_witness :
  0 <= 0
  /\ readValue [xff; xff] 0 2 = Ok (VNumber 65535, 2)
  /\ exists v, readValue [xff; xff] 0 1 = Ok (VNumber v, 1) /\ -128 <= v < 128.
Proof.
  destruct (readValue_int8_uint16 [xff; xff] 0) as [H1 H2]; [lia |].
  split; [lia |]. split.
  - apply (H2 xff xff); reflexivity.
  - destruct (H1 xff) as (v & Hv & Hr & _); [reflexivity |].
    exists v. split; assumption.
Defined.

(** Serial type 2 on the bytes 0xFF 0xFF is 65535, not -1. *)
Lemma readValue_uint16_not_signed :
  readValue [xff; xff] 0 2 = Ok (VNumber 65535, 2)
  /\ readValue [xff; xff] 0 2 <> Ok (VNumber (-1), 2).
Proof. split; [reflexivity | discriminate]. Qed.

(** C3, as the code has it: with the bytes available at the cursor, an even
    serial type from 14 on yields a blob of the [(serialType - 12) / 2] bytes
    at the cursor, an odd serial type from 15 on the text decoded from the
    [(serialType - 13) / 2] bytes at the cursor, and the serial types 12 and
    13 yield null without moving the cursor. *)
Theorem readValue_blob_text (buffer : Buffer) (cursor serialType : Z) :
  0 <= cursor ->
  (14 <= serialType -> Z.even serialType = true ->
   cursor + (serialType - 12) / 2 <= blen buffer ->
   exists bytes,
     bytes = take (Z.to_nat ((serialType - 12) / 2)) (drop (Z.to_nat cursor) buffer)
     /\ Z.of_nat (length bytes) = (serialType - 12) / 2
     /\ readValue buffer cursor serialType
        = Ok (VBuffer bytes, cursor + (serialType - 12) / 2))
  /\ (15 <= serialType -> Z.odd serialType = true ->
      cursor + (serialType - 13) / 2 <= blen buffer ->
      exists bytes,
        bytes = take (Z.to_nat ((serialType - 13) / 2)) (drop (Z.to_nat cursor) buffer)
        /\ Z.of_nat (length bytes) = (serialType - 13) / 2
        /\ readValue buffer cursor serialType
           = Ok (VString (toStringUtf8 bytes), cursor + (serialType - 13) / 2))
  /\ readValue buffer cursor 12 = Ok (VNull, cursor)
  /\ readValue buffer cursor 13 = Ok (VNull, cursor).
Proof.
  intros Hc. split; [| split; [| split; reflexivity]].
  - intros H14 Hev Hb.
    assert (Hrem : Z.rem serialType 2 = 0).
    { rewrite Z.rem_mod_nonneg by lia. rewrite Zmod_even, Hev. reflexivity. }
    assert (Hsz : 0 <= (serialType - 12) / 2) by (apply Z.div_pos; lia).
    destruct (subarray_in buffer cursor _ Hc Hsz Hb) as [Hsub Hlen].
    eexists. split; [reflexivity |]. split; [rewrite <- Hsub; exact Hlen |].
    unfold readValue, includes. rewrite Hrem. simpl. decide_tests.
    rewrite Hsub. reflexivity.
  - intros H15 Hodd Hb.
    assert (Hrem : Z.rem serialType 2 = 1).
    { rewrite Z.rem_mod_nonneg by lia. rewrite Zmod_odd, Hodd. reflexivity. }
    assert (Hsz : 0 <= (serialType - 13) / 2) by (apply Z.div_pos; lia).
    destruct (subarray_in buffer cursor _ Hc Hsz Hb) as [Hsub Hlen].
    eexists. split; [reflexivity |]. split; [rewrite <- Hsub; exact Hlen |].
    unfold readValue, includes. rewrite Hrem. simpl. decide_tests.
    rewrite Hsub. reflexivity.
Qed.

Lemma readValue_blob_text_witness :
  0 <= 1
  /\ readValue [x00; x66; x75; x6a; x69] 1 20 = Ok (VBuffer [x66; x75; x6a; x69], 5)
  /\ readValue [x00; x66; x75; x6a; x69] 1 21 = Ok (VString (js "fuji"), 5).
Proof.
  destruct (readValue_blob_text [x00; x66; x75; x6a; x69] 1 20) as (H20 & _);
    [lia |].
  destruct (readValue_blob_text [x00; x66; x75; x6a; x69] 1 21) as (_ & H21 & _);
    [lia |].
  split; [lia |]. split.
  - destruct H20 as (bytes & -> & _ & Hr);
      [lia | reflexivity | vm_compute; discriminate |].
    exact Hr.
  - destruct H21 as (bytes & -> & _ & Hr);
      [lia | reflexivity | vm_compute; discriminate |].
    exact Hr.
Defined.

(** Serial types 12 and 13 decode to null, not to an empty blob or text;
    and a blob is shorter than [(serialType - 12) / 2] when the buffer
    ends before. *)
Lemma readValue_serial_12_13_null :
  readValue [x61] 0 12 = Ok (VNull, 0)
  /\ readValue [x61] 0 12 <> Ok (VBuffer [], 0)
  /\ readValue [x61] 0 13 = Ok (VNull, 0)
  /\ readValue [x61] 0 13 <> Ok (VString [], 0)
  /\ readValue [x61] 0 16 = Ok (VBuffer [x61], 2).
Proof. repeat split; discriminate. Qed.

(** ** [applyFilter] *)

Lemma strictEq_spec (v : Value) (l : Literal) :
  strictEq v l = true <-> StrictlyEqual v l.
Proof.
  split.
  - destruct v, l; simpl; try discriminate; intros H.
    + constructor.
    + constructor.
    + apply Z.eqb_eq in H. subst. constructor.
    + apply Z.eqb_eq in H. subst. constructor.
    + apply bool_decide_eq_true in H. subst. constructor.
  - intros []; simpl; try reflexivity.
    + apply Z.eqb_refl.
    + apply Z.eqb_refl.
    + apply bool_decide_eq_true. reflexivity.
Qed.

Lemma filter_strictEq (rows : list Row) (c : JSString) (l : Literal) :
  List.filter (fun row => strictEq (mapGet row c) l) rows
  = filter (fun row => StrictlyEqual (mapGet row c) l) rows.
Proof.
  induction rows as [| row rows IH]; [reflexivity |].
  simpl. rewrite filter_cons. rewrite IH.
  destruct (strictEq (mapGet row c) l) eqn:E.
  - rewrite decide_True by (apply strictEq_spec; exact E). reflexivity.
  - rewrite decide_False; [reflexivity |].
    intros H. apply strictEq_spec in H. congruence.
Qed.

(** C10: with a one-element where clause [(column, literal)] the filter
    returns exactly the rows whose value at the column is strictly equal to
    the literal, in their original order (the result is the order-preserving
    selection of those rows); with an empty where clause it returns the rows
    unchanged. *)
Theorem applyFilter_spec (rows : list Row) :
  applyFilter rows [] = rows
  /\ forall (column : JSString) (literal : Literal),
       applyFilter rows [(column, literal)]
       = filter (fun row => StrictlyEqual (mapGet row column) literal) rows.
Proof.
  split; [reflexivity |].
  intros column literal. simpl. apply filter_strictEq.
Qed.

(** No coercion: the number 2 does not match the text "2". *)
Example applyFilter_no_coercion :
  applyFilter [Demo.row 2 20] [(js "id", LString (js "2"))] = []
  /\ applyFilter [Demo.row 2 20] [(js "id", LNumber 2)] = [Demo.row 2 20].
Proof. split; vm_compute; reflexivity. Qed.

(** ** The scan *)

Section Scan.

Variable fileHandle : FileHandle.
Variable pageSize : Z.
Variable columns : list JSString.
Variable identityColumn : option JSString.

Local Abbreviation scan_of := (scans fileHandle pageSize columns identityColumn).

Lemma scanChildren_mono (scan scan' : Z -> option (result (list Row)))
    (children : list Z) :
  (forall child r, scan child = Some r -> scan' child = Some r) ->
  forall rows r,
    scanChildren scan children rows = Some r ->
    scanChildren scan' children rows = Some r.
Proof.
  intros Hmono. induction children as [| child rest IH]; intros rows r; simpl.
  - trivial.
  - destruct (scan child) as [[childRows | e] |] eqn:E; [| | discriminate].
    + rewrite (Hmono _ _ E). apply IH.
    + rewrite (Hmono _ _ E). trivial.
Qed.

(** More fuel does not change a result. *)
Lemma readTableRows_mono (fuel : nat) :
  forall page r,
    readTableRows fuel fileHandle page pageSize columns identityColumn = Some r ->
    readTableRows (S fuel) fileHandle page pageSize columns identityColumn = Some r.
Proof.
  induction fuel as [| fuel IH]; intros page r; [discriminate |].
  intros H. simpl in H.
  change (readTableRows (S (S fuel)) fileHandle page pageSize columns identityColumn)
    with
    (match (let* buffer := fh_read fileHandle pageSize ((page - 1) * pageSize) in
            let* header := readPageHeader buffer in Ok (buffer, header)) with
     | Throw e => Some (Throw e)
     | Ok (buffer, (pageType, numberOfCells, rightMostPointer)) =>
         if pageType =? 13 then
           Some (parseTableLeafPage pageType numberOfCells buffer columns identityColumn)
         else if pageType =? 5 then
           match parseTableInteriorPage pageType numberOfCells buffer with
           | Throw e => Some (Throw e)
           | Ok childPointers =>
               scanChildren
                 (fun childPointer =>
                    readTableRows (S fuel) fileHandle childPointer pageSize
                      columns identityColumn)
                 childPointers []
           end
         else Some (Throw (UnknownPageType pageType))
     end).
  destruct (let* buffer := fh_read fileHandle pageSize ((page - 1) * pageSize) in
            let* header := readPageHeader buffer in Ok (buffer, header))
    as [[buffer [[pageType numberOfCells] rightMostPointer]] | e]; [| exact H].
  destruct (pageType =? 13); [exact H |].
  destruct (pageType =? 5); [| exact H].
  destruct (parseTableInteriorPage pageType numberOfCells buffer)
    as [childPointers | e]; [| exact H].
  revert H. apply scanChildren_mono. intros child r'. apply IH.
Qed.

Lemma readTableRows_mono_le (fuel fuel' : nat) (page : Z) r :
  (fuel <= fuel')%nat ->
  readTableRows fuel fileHandle page pageSize columns identityColumn = Some r ->
  readTableRows fuel' fileHandle page pageSize columns identityColumn = Some r.
Proof.
  induction 1 as [| fuel' Hle IH]; [trivial |].
  intros H. apply readTableRows_mono. apply IH. exact H.
Qed.

(** A scan has at most one result. *)
Lemma scans_unique (page : Z) (rows rows' : list Row) :
  scan_of page rows -> scan_of page rows' -> rows = rows'.
Proof.
  intros [f Hf] [f' Hf'].
  apply (readTableRows_mono_le f (Nat.max f f')) in Hf; [| lia].
  apply (readTableRows_mono_le f' (Nat.max f f')) in Hf'; [| lia].
  congruence.
Qed.

(** One step of the scan on an interior page: the children read from the
    cells are scanned in order. *)
Lemma readTableRows_interior (fuel : nat) (page : Z) (buffer : Buffer)
    (numberOfCells : Z) (rightMostPointer : option Z) :
  fh_read fileHandle pageSize ((page - 1) * pageSize) = Ok buffer ->
  readPageHeader buffer = Ok (5, numberOfCells, rightMostPointer) ->
  readTableRows (S fuel) fileHandle page pageSize columns identityColumn
  = match parseTableInteriorPage 5 numberOfCells buffer with
    | Throw e => Some (Throw e)
    | Ok childPointers =>
        scanChildren
          (fun childPointer =>
             readTableRows fuel fileHandle childPointer pageSize columns identityColumn)
          childPointers []
    end.
Proof. intros Hread Hhead. simpl. rewrite Hread. simpl. rewrite Hhead. reflexivity. Qed.

(** The loop over the children appends the child results in order. *)
Lemma scanChildren_ok (scan : Z -> option (result (list Row)))
    (children : list Z) :
  forall rows out,
    scanChildren scan children rows = Some (Ok out) <->
    exists results,
      Forall2 (fun child r => scan child = Some (Ok r)) children results
      /\ out = rows ++ concat results.
Proof.
  induction children as [| child rest IH]; intros rows out; simpl.
  - split.
    + intros H. exists []. split; [constructor |].
      simpl. rewrite app_nil_r. congruence.
    + intros (results & HF & ->). inversion HF; subst. simpl.
      rewrite app_nil_r. reflexivity.
  - destruct (scan child) as [[childRows | e] |] eqn:E.
    + rewrite IH. split.
      * intros (results & HF & ->). exists (childRows :: results).
        split; [constructor; assumption |]. simpl. rewrite app_assoc. reflexivity.
      * intros (results & HF & ->). inversion HF as [| ? r ? results' Hr HF']; subst.
        rewrite E in Hr. injection Hr as <-.
        exists results'. split; [assumption |]. simpl. rewrite app_assoc. reflexivity.
    + split; [discriminate |].
      intros (results & HF & _). inversion HF; subst. congruence.
    + split; [discriminate |].
      intros (results & HF & _). inversion HF; subst. congruence.
Qed.


End Scan.

(** ** The row id alias *)

Section Alias.

Variable fileHandle : FileHandle.
Variable pageSize : Z.
Variable columns : list JSString.
Variable c : JSString.
Hypothesis c_set : c <> [].

(** The property of a produced row: it is the row of a cell of a leaf page
    read from the file, and holds the row id of that cell at column [c]. *)
Let fromCell (row : Row) : Prop :=
  exists position buffer cursor rowId,
    fh_read fileHandle pageSize position = Ok buffer
    /\ cellRow columns c buffer cursor rowId row
    /\ mapGet row c = VNumber rowId.

Lemma readCell_leaf_rowId (buffer : Buffer) (cellPointer : Z) record rowId :
  readCell 13 buffer cellPointer = Ok (record, rowId) ->
  exists n, rowId = VNumber n.
Proof.
  unfold readCell. simpl.
  destruct (readVarInt buffer cellPointer) as [[recordSize bytesRead] | e];
    [simpl | discriminate].
  destruct (readVarInt buffer (cellPointer + bytesRead)) as [[value n] | e];
    [simpl | discriminate].
  intros H. injection H as _ <-. eexists. reflexivity.
Qed.

Lemma truthy_set : truthy (Some c) = true.
Proof. destruct c; [contradiction | reflexivity]. Qed.

Local Arguments truthy : simpl never.

Lemma leafLoop_rows (position : Z) (buffer : Buffer) (n : nat) :
  fh_read fileHandle pageSize position = Ok buffer ->
  forall cursor rows out,
    Forall fromCell rows ->
    leafLoop n 13 buffer columns (Some c) cursor rows = Ok out ->
    Forall fromCell out.
Proof.
  intros Hread. induction n as [| n IH]; intros cursor rows out Hrows; simpl.
  - congruence.
  - destruct (readUInt16BE buffer cursor) as [cellPointer | e] eqn:Hptr;
      [simpl | discriminate].
    destruct (readCell 13 buffer cellPointer) as [[record rowId] | e] eqn:Hcell;
      [simpl | discriminate].
    destruct (parseRecord record columns) as [decoded | e] eqn:Hrec;
      [simpl | discriminate].
    destruct (readCell_leaf_rowId _ _ _ _ Hcell) as [k ->].
    rewrite truthy_set. apply IH.
    apply Forall_app. split; [exact Hrows |].
    constructor; [| constructor].
    exists position, buffer, cursor, k. split; [exact Hread |]. split.
    + exists cellPointer, record, decoded. repeat split; assumption.
    + unfold mapGet. rewrite lookup_insert_eq. reflexivity.
Qed.

Lemma scanChildren_Forall (P : Row -> Prop)
    (scan : Z -> option (result (list Row))) (children : list Z) :
  (forall child r, scan child = Some (Ok r) -> Forall P r) ->
  forall rows out,
    Forall P rows ->
    scanChildren scan children rows = Some (Ok out) ->
    Forall P out.
Proof.
  intros Hscan rows out Hrows H.
  apply scanChildren_ok in H. destruct H as (results & HF & ->).
  apply Forall_app. split; [exact Hrows |].
  apply Forall_concat.
  induction HF as [| child r children' results' Hr HF IH]; constructor.
  - apply (Hscan _ _ Hr).
  - exact IH.
Qed.

(** C8: when the table declares an integer-primary-key alias column [c],
    every row that a scan produces is the row of a leaf cell read from the
    file and has at column [c] the row id of that cell, a number and not the
    null stored in the record. *)
Theorem scan_rows_hold_rowId (fuel : nat) (page : Z) (rows : list Row) :
  readTableRows fuel fileHandle page pageSize columns (Some c) = Some (Ok rows) ->
  Forall
    (fun row =>
       exists position buffer cursor rowId,
         fh_read fileHandle pageSize position = Ok buffer
         /\ cellRow columns c buffer cursor rowId row
         /\ mapGet row c = VNumber rowId
         /\ mapGet row c <> VNull)
    rows.
Proof.
  intros H.
  assert (Hfrom : Forall fromCell rows).
  { revert page rows H. induction fuel as [| fuel' IH]; intros page rows;
      [discriminate |].
    simpl.
    destruct (fh_read fileHandle pageSize ((page - 1) * pageSize))
      as [buffer | e] eqn:Hread; [simpl | discriminate].
    destruct (readPageHeader buffer) as [[[pageType numberOfCells] rm] | e];
      [simpl | discriminate].
    destruct (Z.eqb_spec pageType 13) as [-> | _].
    - unfold parseTableLeafPage. simpl. intros H. injection H as H.
      apply (leafLoop_rows _ _ (Z.to_nat numberOfCells) Hread 8 [] rows);
        [constructor | exact H].
    - destruct (pageType =? 5); [| discriminate].
      destruct (parseTableInteriorPage pageType numberOfCells buffer)
        as [children | e]; [| discriminate].
      apply scanChildren_Forall; [| constructor].
      intros child r. apply IH. }
  apply (Forall_impl _ _ _ Hfrom).
  intros row (position & buffer & cursor & rowId & Hread & Hcell & Hget).
  exists position, buffer, cursor, rowId.
  repeat split; try assumption. rewrite Hget. discriminate.
Qed.

End Alias.

(** ** The right-most pointer *)

Lemma sameButRightMost_read (b b' : Buffer) (offset : Z) (n : nat) :
  sameButRightMost b b' ->
  offset + Z.of_nat n <= 8 \/ 12 <= offset ->
  readUIntBE b offset n = readUIntBE b' offset n.
Proof.
  intros [Hlen Hsame] Hoff. unfold readUIntBE, inBounds, blen. rewrite <- Hlen.
  destruct (Z.leb_spec 0 offset) as [H0 |]; [simpl | reflexivity].
  destruct (Z.leb_spec (offset + Z.of_nat n) (Z.of_nat (length b)));
    [| reflexivity].
  do 2 f_equal. apply list_eq. intros i.
  destruct (decide (i < n)%nat) as [Hi | Hi].
  - rewrite !lookup_take_lt, !lookup_drop by exact Hi. apply Hsame. lia.
  - rewrite !lookup_take_ge by lia. reflexivity.
Qed.

Lemma sameButRightMost_int8 (b b' : Buffer) :
  sameButRightMost b b' -> readInt8 b 0 = readInt8 b' 0.
Proof.
  intros H. unfold readInt8.
  rewrite (sameButRightMost_read b b' 0 1 H) by lia. reflexivity.
Qed.

(** The header fields other than the right-most pointer agree. *)
Lemma sameButRightMost_header (b b' : Buffer) :
  sameButRightMost b b' ->
  match readPageHeader b, readPageHeader b' with
  | Ok (pageType, numberOfCells, _), Ok (pageType', numberOfCells', _) =>
      pageType = pageType' /\ numberOfCells = numberOfCells'
      /\ readUInt16BE b 3 = Ok numberOfCells
  | Throw e, Throw e' => e = e'
  | _, _ => False
  end.
Proof.
  intros H. unfold readPageHeader, readUInt16BE, readUInt32BE.
  rewrite <- (sameButRightMost_int8 b b' H).
  rewrite <- (sameButRightMost_read b b' 1 2 H) by lia.
  rewrite <- (sameButRightMost_read b b' 3 2 H) by lia.
  rewrite <- (sameButRightMost_read b b' 5 2 H) by lia.
  destruct (readInt8 b 0) as [pageType | e]; [simpl | reflexivity].
  destruct (readUIntBE b 1 2) as [free | e]; [simpl | reflexivity].
  destruct (readUIntBE b 3 2) as [numberOfCells | e]; [simpl | reflexivity].
  destruct (readUIntBE b 5 2) as [content | e]; [simpl | reflexivity].
  destruct ((pageType =? 2) || (pageType =? 5)); [| simpl; auto].
  destruct H as [Hlen _].
  unfold readUIntBE, inBounds, blen. rewrite <- Hlen.
  destruct ((0 <=? 8) && (8 + Z.of_nat 4 <=? Z.of_nat (length b))); simpl; auto.
Qed.

Lemma sameButRightMost_interiorLoop (b b' : Buffer) (numberOfCells : Z) :
  sameButRightMost b b' -> cellsBehindHeader b ->
  readUInt16BE b 3 = Ok numberOfCells ->
  forall (n : nat) (i : Z) children,
    0 <= i -> i + Z.of_nat n <= numberOfCells ->
    interiorLoop n b (12 + 2 * i) children = interiorLoop n b' (12 + 2 * i) children.
Proof.
  intros Hsame Hclear Hn. induction n as [| n IH]; intros i children Hi Hle;
    [reflexivity |].
  simpl. unfold readUInt16BE, readUInt32BE.
  rewrite <- (sameButRightMost_read b b' (12 + 2 * i) 2 Hsame) by lia.
  destruct (readUIntBE b (12 + 2 * i) 2) as [cellPointer | e] eqn:Hptr;
    [simpl | reflexivity].
  assert (12 <= cellPointer) by (apply (Hclear numberOfCells i); [assumption | lia | exact Hptr]).
  rewrite <- (sameButRightMost_read b b' cellPointer 4 Hsame) by lia.
  destruct (readUIntBE b cellPointer 4) as [child | e]; [simpl | reflexivity].
  replace (12 + 2 * i + 2) with (12 + 2 * (i + 1)) by lia.
  apply IH; lia.
Qed.

Lemma scanChildren_ext (scan scan' : Z -> option (result (list Row)))
    (children : list Z) :
  (forall child, scan child = scan' child) ->
  forall rows, scanChildren scan children rows = scanChildren scan' children rows.
Proof.
  intros Hext. induction children as [| child rest IH]; intros rows; simpl;
    [reflexivity |].
  rewrite <- Hext. destruct (scan child) as [[r | e] |]; auto.
Qed.

(** C2: on an interior table page the scan recurses into the child pages
    of the cell pointer array and into nothing else; the right-most pointer
    is read with the header and never used: two files that differ only in
    right-most pointers give the same scan, whatever the fuel, the page and
    the columns. *)
Theorem rightMostPointer_not_scanned (fh fh' : FileHandle) (pageSize : Z)
    (columns : list JSString) (identityColumn : option JSString) :
  sameFileButRightMost pageSize fh fh' ->
  (forall fuel page buffer numberOfCells rightMostPointer,
     fh_read fh pageSize ((page - 1) * pageSize) = Ok buffer ->
     readPageHeader buffer = Ok (5, numberOfCells, rightMostPointer) ->
     is_Some rightMostPointer
     /\ readTableRows (S fuel) fh page pageSize columns identityColumn
        = match parseTableInteriorPage 5 numberOfCells buffer with
          | Throw e => Some (Throw e)
          | Ok childPointers =>
              scanChildren
                (fun childPointer =>
                   readTableRows fuel fh childPointer pageSize columns identityColumn)
                childPointers []
          end)
  /\ (forall fuel page,
        readTableRows fuel fh page pageSize columns identityColumn
        = readTableRows fuel fh' page pageSize columns identityColumn).
Proof.
  intros Hfiles. split.
  - intros fuel page buffer numberOfCells rightMostPointer Hread Hhead. split.
    + revert Hhead. unfold readPageHeader.
      destruct (readInt8 buffer 0) as [pageType | e]; [simpl | discriminate].
      destruct (readUInt16BE buffer 1); [simpl | discriminate].
      destruct (readUInt16BE buffer 3); [simpl | discriminate].
      destruct (readUInt16BE buffer 5); [simpl | discriminate].
      destruct (Z.eqb_spec pageType 2) as [-> | _]; [simpl |].
      * destruct (readUInt32BE buffer 8); simpl; discriminate.
      * destruct (Z.eqb_spec pageType 5) as [-> | Hne]; simpl.
        -- destruct (readUInt32BE buffer 8); simpl; [| discriminate].
           intros H. injection H as _ <-. eexists. reflexivity.
        -- intros H. injection H as -> _ _. contradiction.
    + apply (readTableRows_interior _ _ _ _ _ _ _ _ _ Hread Hhead).
  - induction fuel as [| fuel IH]; intros page; [reflexivity |].
    simpl. specialize (Hfiles page).
    destruct (fh_read fh pageSize ((page - 1) * pageSize)) as [b | e],
             (fh_read fh' pageSize ((page - 1) * pageSize)) as [b' | e'];
      try contradiction; [| simpl; congruence].
    simpl. destruct Hfiles as [<- | (Htype & Hsame & Hclear)].
    + destruct (readPageHeader b) as [[[pageType numberOfCells] rm] | e];
        [simpl | reflexivity].
      destruct (pageType =? 13); [reflexivity |].
      destruct (pageType =? 5); [| reflexivity].
      destruct (parseTableInteriorPage pageType numberOfCells b); [| reflexivity].
      apply scanChildren_ext. intros child. apply IH.
    + pose proof (sameButRightMost_header b b' Hsame) as Hhead.
      assert (Hpt : forall pt n rm, readPageHeader b = Ok (pt, n, rm) -> pt = 5).
      { unfold readPageHeader. rewrite Htype. simpl. intros pt n rm.
        destruct (readUInt16BE b 1); [simpl | discriminate].
        destruct (readUInt16BE b 3); [simpl | discriminate].
        destruct (readUInt16BE b 5); [simpl | discriminate].
        destruct (readUInt32BE b 8); simpl; [| discriminate].
        intros H. injection H as <- _ _. reflexivity. }
      destruct (readPageHeader b) as [[[pageType numberOfCells] rm] | e],
               (readPageHeader b') as [[[pageType' numberOfCells'] rm'] | e'];
        try contradiction; [| simpl; congruence].
      destruct Hhead as (<- & <- & Hn).
      rewrite (Hpt _ _ _ eq_refl). simpl.
      unfold parseTableInteriorPage. simpl.
      assert (Hnn : 0 <= numberOfCells).
      { apply (readUIntBE_nonneg _ _ _ _ Hn). }
      pose proof (sameButRightMost_interiorLoop b b' numberOfCells Hsame Hclear Hn
                    (Z.to_nat numberOfCells) 0 []) as Hloop.
      change (12 + 2 * 0) with 12 in Hloop. rewrite <- Hloop by lia.
      destruct (interiorLoop (Z.to_nat numberOfCells) b 12 []);
        [| reflexivity].
      apply scanChildren_ext. intros child. apply IH.
Qed.

(** ** The scan on the small database *)

Lemma scan_rows_hold_rowId_witness :
  js "id" <> []
  /\ readTableRows 2 (fileOf Demo.database) 2 512 Demo.columns (Some (js "id"))
     = Some (Ok [Demo.row 1 10; Demo.row 2 20])
  /\ Forall
       (fun row =>
          exists position buffer cursor rowId,
            fh_read (fileOf Demo.database) 512 position = Ok buffer
            /\ cellRow Demo.columns (js "id") buffer cursor rowId row
            /\ mapGet row (js "id") = VNumber rowId
            /\ mapGet row (js "id") <> VNull)
       [Demo.row 1 10; Demo.row 2 20].
Proof.
  assert (Hc : js "id" <> []) by discriminate.
  assert (Hscan : readTableRows 2 (fileOf Demo.database) 2 512 Demo.columns
                    (Some (js "id"))
                  = Some (Ok [Demo.row 1 10; Demo.row 2 20]))
    by (vm_compute; reflexivity).
  split; [exact Hc |]. split; [exact Hscan |].
  exact (scan_rows_hold_rowId (fileOf Demo.database) 512 Demo.columns (js "id")
           Hc 2 2 _ Hscan).
Defined.


Lemma sameButRightMost_app (h r r' t : list byte) :
  length h = 8%nat -> length r = 4%nat -> length r' = 4%nat ->
  sameButRightMost (h ++ r ++ t) (h ++ r' ++ t).
Proof.
  intros Hh Hr Hr'. split.
  - rewrite !length_app. lia.
  - intros i [Hi | Hi].
    + rewrite !lookup_app_l by lia. reflexivity.
    + rewrite !lookup_app_r by lia. rewrite Hh, Hr, Hr'. reflexivity.
Qed.

(** The small database and the same file with another right-most pointer
    on page 2 agree in the sense of [sameFileButRightMost]. *)
Lemma demo_sameFileButRightMost :
  sameFileButRightMost 512 (fileOf Demo.database) (fileOf (Demo.databaseWith 3)).
Proof.
  intros page. unfold fileOf, fh_read.
  destruct (Z.leb_spec 0 ((page - 1) * 512)) as [Hpos | Hneg];
    [| reflexivity].
  change ((0 <=? 512)) with true. cbv beta iota delta [andb].
  destruct (Z_le_gt_dec 5 page) as [Hbig | Hsmall].
  - left.
    assert (Hlen : length Demo.database = 2048%nat) by (vm_compute; reflexivity).
    assert (Hlen' : length (Demo.databaseWith 3) = 2048%nat)
      by (vm_compute; reflexivity).
    rewrite !drop_ge by lia. reflexivity.
  - assert (Hpage : page = 1 \/ page = 2 \/ page = 3 \/ page = 4) by lia.
    destruct Hpage as [-> | [-> | [-> | ->]]].
    + left. vm_compute. reflexivity.
    + right. split; [vm_compute; reflexivity |]. split.
      * match goal with
        | |- sameButRightMost ?b ?b' =>
            replace b with (take 8 Demo.page2 ++ Demo.u32 4 ++ drop 12 Demo.page2)
              by (vm_compute; reflexivity);
            replace b' with (take 8 Demo.page2 ++ Demo.u32 3 ++ drop 12 Demo.page2)
              by (vm_compute; reflexivity)
        end.
        apply sameButRightMost_app; vm_compute; reflexivity.
      * intros n i cellPointer Hn Hi.
        match type of Hn with
        | readUInt16BE ?b 3 = _ =>
            replace b with Demo.page2 in * by (vm_compute; reflexivity)
        end.
        assert (Hn1 : readUInt16BE Demo.page2 3 = Ok 1) by (vm_compute; reflexivity).
        rewrite Hn1 in Hn. injection Hn as <-.
        assert (i = 0) as -> by lia.
        assert (Hp : readUInt16BE Demo.page2 (12 + 2 * 0) = Ok 507)
          by (vm_compute; reflexivity).
        rewrite Hp. intros H. injection H as <-. lia.
    + left. vm_compute. reflexivity.
    + left. vm_compute. reflexivity.
Qed.

Lemma rightMostPointer_not_scanned_witness :
  sameFileButRightMost 512 (fileOf Demo.database) (fileOf (Demo.databaseWith 3))
  /\ readTableRows 2 (fileOf (Demo.databaseWith 3)) 2 512 Demo.columns (Some (js "id"))
     = Some (Ok [Demo.row 1 10; Demo.row 2 20])
  /\ readTableRows 2 (fileOf Demo.database) 2 512 Demo.columns (Some (js "id"))
     = readTableRows 2 (fileOf (Demo.databaseWith 3)) 2 512 Demo.columns
         (Some (js "id")).
Proof.
  split; [exact demo_sameFileButRightMost |].
  split; [vm_compute; reflexivity |].
  exact (proj2 (rightMostPointer_not_scanned (fileOf Demo.database)
                  (fileOf (Demo.databaseWith 3)) 512 Demo.columns (Some (js "id"))
                  demo_sameFileButRightMost) 2%nat 2).
Defined.

(** C1 on the small database: the table rooted at page 2 is one interior
    page with the two leaf children 3 (in the cell) and 4 (the right-most
    pointer), and stores the four rows 1, 2, 3, 4.  The scan of the root
    returns the two rows of page 3 only. *)
Theorem scan_misses_rightMost_leaf :
  readPageHeader Demo.page2 = Ok (5, 1, Some 4)
  /\ parseTableInteriorPage 5 1 Demo.page2 = Ok [3]
  /\ scans (fileOf Demo.database) 512 Demo.columns (Some (js "id")) 3
       [Demo.row 1 10; Demo.row 2 20]
  /\ scans (fileOf Demo.database) 512 Demo.columns (Some (js "id")) 4
       [Demo.row 3 30; Demo.row 4 40]
  /\ scans (fileOf Demo.database) 512 Demo.columns (Some (js "id")) 2
       [Demo.row 1 10; Demo.row 2 20]
  /\ forall fuel,
       readTableRows fuel (fileOf Demo.database) 2 512 Demo.columns (Some (js "id"))
       <> Some (Ok [Demo.row 1 10; Demo.row 2 20; Demo.row 3 30; Demo.row 4 40]).
Proof.
  assert (H2 : scans (fileOf Demo.database) 512 Demo.columns (Some (js "id")) 2
                 [Demo.row 1 10; Demo.row 2 20])
    by (exists 2%nat; vm_compute; reflexivity).
  split; [vm_compute; reflexivity |].
  split; [vm_compute; reflexivity |].
  split; [exists 1%nat; vm_compute; reflexivity |].
  split; [exists 1%nat; vm_compute; reflexivity |].
  split; [exact H2 |].
  intros fuel H.
  assert (H4 : scans (fileOf Demo.database) 512 Demo.columns (Some (js "id")) 2
                 [Demo.row 1 10; Demo.row 2 20; Demo.row 3 30; Demo.row 4 40])
    by (exists fuel; exact H).
  pose proof (scans_unique _ _ _ _ _ _ _ H2 H4) as E.
  apply (f_equal length) in E. discriminate.
Qed.

(** ** The table list *)

Lemma stringLt_asym (a : JSString) :
  forall b, stringLt a b = true -> stringLt b a = false.
Proof.
  induction a as [| x a IH]; intros [| y b]; simpl; try congruence.
  decide_tests; try congruence. apply IH.
Qed.

Lemma stringLe_trans (a : JSString) :
  forall b c, stringLt b a = false -> stringLt c b = false -> stringLt c a = false.
Proof.
  induction a as [| x a IH]; intros [| y b] [| z c]; simpl; try congruence.
  decide_tests; try congruence. apply IH.
Qed.

Lemma sortLe_spec (x y : Value) :
  sortLe x y = true <->
  y = VUndefined
  \/ (x <> VUndefined /\ y <> VUndefined
      /\ stringLt (toStringValue y) (toStringValue x) = false).
Proof.
  destruct (decide (y = VUndefined)) as [-> | Hy].
  - split; [left; reflexivity |]. intros _. destruct x; reflexivity.
  - destruct (decide (x = VUndefined)) as [-> | Hx].
    + split.
      * destruct y; cbv beta iota delta [sortLe]; congruence.
      * intros [H | (H & _)]; congruence.
    + assert (E : sortLe x y
                  = negb (stringLt (toStringValue y) (toStringValue x)))
        by (destruct x, y; first [congruence | reflexivity]).
      rewrite E, negb_true_iff. split.
      * intros H. right. repeat split; assumption.
      * intros [H | (_ & _ & H)]; [contradiction | exact H].
Qed.

Lemma sortLe_total (x y : Value) : sortLe x y = true \/ sortLe y x = true.
Proof.
  rewrite !sortLe_spec.
  destruct (decide (y = VUndefined)) as [-> | Hy]; [left; left; reflexivity |].
  destruct (decide (x = VUndefined)) as [-> | Hx]; [right; left; reflexivity |].
  destruct (stringLt (toStringValue y) (toStringValue x)) eqn:E.
  - right. right. repeat split; try assumption. apply stringLt_asym. exact E.
  - left. right. repeat split; assumption.
Qed.

Lemma sortLe_trans (x y z : Value) :
  sortLe x y = true -> sortLe y z = true -> sortLe x z = true.
Proof.
  rewrite !sortLe_spec.
  intros [-> | (Hx & Hy & Hxy)] [-> | (Hy' & Hz & Hyz)].
  - left. reflexivity.
  - contradiction.
  - left. reflexivity.
  - right. repeat split; try assumption.
    apply (stringLe_trans _ (toStringValue y)); assumption.
Qed.

Lemma insertSorted_perm (x : Value) (l : list Value) :
  insertSorted x l ≡ₚ x :: l.
Proof.
  induction l as [| y l IH]; simpl; [reflexivity |].
  destruct (sortLe x y); [reflexivity |].
  rewrite IH. apply Permutation_swap.
Qed.

Lemma sort_perm (l : list Value) : sort l ≡ₚ l.
Proof.
  induction l as [| x l IH]; simpl; [reflexivity |].
  rewrite insertSorted_perm, IH. reflexivity.
Qed.

Lemma insertSorted_sorted (x : Value) (l : list Value) :
  Sorted (fun a b => sortLe a b = true) l ->
  Sorted (fun a b => sortLe a b = true) (insertSorted x l).
Proof.
  induction 1 as [| y l Hl IH Hhd]; simpl.
  - repeat constructor.
  - destruct (sortLe x y) eqn:E.
    + constructor; [constructor; assumption | constructor; exact E].
    + constructor; [exact IH |].
      destruct (sortLe_total x y) as [H | H]; [congruence |].
      destruct l as [| z l]; simpl.
      * constructor. exact H.
      * destruct (sortLe x z); constructor; [exact H |].
        inversion Hhd; assumption.
Qed.

Lemma sort_sorted (l : list Value) :
  StronglySorted (fun a b => sortLe a b = true) (sort l).
Proof.
  apply Sorted_StronglySorted.
  - intros x y z. apply sortLe_trans.
  - induction l as [| x l IH]; simpl; [constructor |].
    apply insertSorted_sorted. exact IH.
Qed.

Lemma strictEq_string (v : Value) (s : JSString) :
  strictEq v (LString s) = true <-> v = VString s.
Proof.
  rewrite strictEq_spec. split.
  - inversion 1. reflexivity.
  - intros ->. constructor.
Qed.

Lemma filter_not_name (s : JSString) (names : list Value) :
  List.filter (fun name => negb (strictEq name (LString s))) names
  = filter (fun name => name <> VString s) names.
Proof.
  induction names as [| name names IH]; [reflexivity |].
  simpl. rewrite filter_cons, IH.
  destruct (strictEq name (LString s)) eqn:E; simpl.
  - apply strictEq_string in E. rewrite decide_False; [reflexivity |].
    intros H. contradiction.
  - rewrite decide_True; [reflexivity |].
    intros H. apply strictEq_string in H. congruence.
Qed.



Example tables_output_demo :
  filterAndFormatListOfTables
    [ {[ js "tableName" := VString (js "t") ]};
      {[ js "tableName" := VString (js "sqlite_sequence") ]};
      {[ js "tableName" := VString (js "apples") ]} ]
  = js "apples t".
Proof. vm_compute. reflexivity. Qed.

(** ** The invocation boundary *)

Section Boundary.

Variable parseSelectCommand : JSString -> result Query.
Variable parseColumns : Value -> result (list JSString * option JSString).
Variable toNumber : Value -> result Z.

(** The errors of the layers below reach the body of the [try] block
    unchanged. *)
Lemma runCommand_header_error (fuel : nat) (fileHandle : FileHandle)
    (command : option JSString) (e : JSError) :
  readDatabaseHeader fileHandle = Throw e ->
  runCommand parseSelectCommand parseColumns toNumber fuel fileHandle command
  = Some (Throw e).
Proof. intros H. unfold runCommand. rewrite H. reflexivity. Qed.

Lemma runCommand_schema_error (fuel : nat) (fileHandle : FileHandle)
    (command : option JSString) (pageSize numberOfPages : Z) (e : JSError) :
  readDatabaseHeader fileHandle = Ok (pageSize, numberOfPages) ->
  readTableSchemas fileHandle pageSize = Throw e ->
  runCommand parseSelectCommand parseColumns toNumber fuel fileHandle command
  = Some (Throw e).
Proof.
  intros H1 H2. unfold runCommand. rewrite H1. simpl. rewrite H2.
  reflexivity.
Qed.

Lemma handleSelectCommand_not_found (fuel : nat) (command : JSString)
    (fileHandle : FileHandle) (pageSize : Z) (tables : list Row) (query : Query) :
  parseSelectCommand command = Ok query ->
  Forall (fun table => mapGet table (js "tableName") <> VString (queryTableName query))
         tables ->
  handleSelectCommand parseSelectCommand parseColumns toNumber fuel command fileHandle
    pageSize tables
  = Some (Throw (TableNotFound (queryTableName query))).
Proof.
  intros Hq Hall. unfold handleSelectCommand. rewrite Hq.
  replace (List.find _ tables) with (@None Row); [reflexivity |].
  symmetry. induction Hall as [| table tables Hne _ IH]; [reflexivity |].
  simpl. destruct (strictEq _ _) eqn:E; [| exact IH].
  apply strictEq_string in E. contradiction.
Qed.

Lemma readTableRows_unknown_page (fuel : nat) (fileHandle : FileHandle)
    (page pageSize : Z) (columns : list JSString) (identityColumn : option JSString)
    (buffer : Buffer) (pageType numberOfCells : Z) (rightMostPointer : option Z) :
  fh_read fileHandle pageSize ((page - 1) * pageSize) = Ok buffer ->
  readPageHeader buffer = Ok (pageType, numberOfCells, rightMostPointer) ->
  pageType <> 13 -> pageType <> 5 ->
  readTableRows (S fuel) fileHandle page pageSize columns identityColumn
  = Some (Throw (UnknownPageType pageType)).
Proof.
  intros Hread Hhead H13 H5. simpl. rewrite Hread. simpl. rewrite Hhead.
  simpl. decide_tests. reflexivity.
Qed.


(** The exit status is not 0 only when closing the file fails. *)
Lemma main_exit_status (fuel : nat) (openFile : JSString -> result FileHandle)
    (databaseFile command : option JSString) (process : Process) :
  main parseSelectCommand parseColumns toNumber fuel openFile databaseFile command
  = Some process ->
  exitCode process <> 0 ->
  exists file fileHandle e,
    databaseFile = Some file /\ openFile file = Ok fileHandle
    /\ fh_close fileHandle = Throw e.
Proof.
  unfold main. destruct databaseFile as [file |].
  - destruct (openFile file) as [fileHandle | e] eqn:Hopen.
    + destruct (runCommand parseSelectCommand parseColumns toNumber fuel fileHandle
                  command) as [body |]; [| discriminate].
      destruct (fh_close fileHandle) as [u | e] eqn:Hclose.
      * intros H. injection H as <-. simpl. contradiction.
      * intros _ _. exists file, fileHandle, e. repeat split; assumption.
    + intros H. injection H as <-. simpl. contradiction.
  - intros H. injection H as <-. simpl. contradiction.
Qed.

End Boundary.



Example demo_commands :
  Demo.run (js "demo.db") (js ".dbinfo")
  = Some (mkProcess [js "database page size: 512"; js "number of tables: 1"] [] 0)
  /\ Demo.run (js "demo.db") (js ".tables") = Some (mkProcess [js "t"] [] 0)
  /\ Demo.run (js "demo.db") (Demo.countFrom "t") = Some (mkProcess [js "2"] [] 0).
Proof. repeat split; vm_compute; reflexivity. Qed.

(** * Further properties of the reader *)

(** ** Values of [readValue] *)

Lemma beValue_bound (bytes : list byte) :
  beValue bytes < 256 ^ Z.of_nat (length bytes).
Proof.
  unfold beValue.
  assert (H : forall (k : nat) acc,
            0 <= acc < 256 ^ Z.of_nat k ->
            fold_left (fun acc b => acc * 256 + byteZ b) bytes acc
            < 256 ^ Z.of_nat (k + length bytes)).
  { induction bytes as [| b rest IH]; intros k acc Hacc; simpl.
    - rewrite Nat.add_0_r. lia.
    - replace (k + S (length rest))%nat with (S k + length rest)%nat by lia.
      apply IH. pose proof (byteZ_range b).
      rewrite Nat2Z.inj_succ, Z.pow_succ_r by lia. lia. }
  apply (H 0%nat 0). simpl. lia.
Qed.

Lemma readUIntBE_range (buffer : Buffer) (offset : Z) (n : nat) (v : Z) :
  readUIntBE buffer offset n = Ok v -> 0 <= v < 256 ^ Z.of_nat n.
Proof.
  intros H. split; [apply (readUIntBE_nonneg _ _ _ _ H) |].
  revert H. unfold readUIntBE, inBounds, blen.
  destruct (Z.leb_spec 0 offset); [simpl | discriminate].
  destruct (Z.leb_spec (offset + Z.of_nat n) (Z.of_nat (length buffer)));
    [| discriminate].
  intros Hv. injection Hv as <-.
  pose proof (beValue_bound (take n (drop (Z.to_nat offset) buffer))) as Hb.
  rewrite length_take_le in Hb; [exact Hb |].
  rewrite length_drop. lia.
Qed.





(** The integer serial types: type 1 reads 1 byte, 2 reads 2, 3 reads 3,
    4 reads 4, 5 reads 6, and 6 and 7 read 8 bytes.  With that many bytes at
    the cursor the value is a number (a BigInt for the types 6 and 7), not
    negative unless the type is 1, below [256 ^ width], and the cursor moves
    by the width; with fewer bytes the read throws a [RangeError]. *)
Theorem readValue_integer_widths (buffer : Buffer) (cursor serialType : Z)
    (width : nat) :
  0 <= cursor ->
  (serialType, width) ∈ [(1, 1%nat); (2, 2%nat); (3, 3%nat); (4, 4%nat);
                          (5, 6%nat); (6, 8%nat); (7, 8%nat)] ->
  (cursor + Z.of_nat width <= blen buffer ->
   exists n,
     readValue buffer cursor serialType
     = Ok (if 6 <=? serialType then VBigInt n else VNumber n,
           cursor + Z.of_nat width)
     /\ n < 256 ^ Z.of_nat width
     /\ (if serialType =? 1 then -128 <= n < 128 else 0 <= n))
  /\ (blen buffer < cursor + Z.of_nat width ->
      readValue buffer cursor serialType = Throw RangeError).
Proof.
  intros Hc Hin.
  assert (Hcases : (serialType = 1 /\ width = 1%nat)
                   \/ (serialType = 2 /\ width = 2%nat)
                   \/ (serialType = 3 /\ width = 3%nat)
                   \/ (serialType = 4 /\ width = 4%nat)
                   \/ (serialType = 5 /\ width = 6%nat)
                   \/ (serialType = 6 /\ width = 8%nat)
                   \/ (serialType = 7 /\ width = 8%nat)).
  { repeat (apply elem_of_cons in Hin; destruct Hin as [Hin | Hin];
            [injection Hin as -> ->; tauto |]).
    apply elem_of_nil in Hin. contradiction. }
  split.
  - intros Hb.
    destruct Hcases as [[-> ->] | [[-> ->] | [[-> ->] | [[-> ->] | [[-> ->] |
                       [[-> ->] | [-> ->]]]]]]];
      unfold readValue, includes; simpl;
      unfold readInt8, readUInt16BE, readUInt32BE, readBigUInt64BE;
      match goal with
      | |- context [readUIntBE ?b ?o ?n] =>
          destruct (readUIntBE b o n) as [v | e] eqn:E;
          [pose proof (readUIntBE_range _ _ _ _ E) as Hr
          | rewrite readUIntBE_in in E by lia; discriminate]
      end; simpl.
    + destruct (Z.ltb_spec v 128); eexists; (split; [reflexivity |]);
        simpl in *; lia.
    + exists v. split; [reflexivity |]. simpl in *. lia.
    + exists v. split; [reflexivity |]. simpl in *. lia.
    + exists v. split; [reflexivity |]. simpl in *. lia.
    + exists v. split; [reflexivity |]. simpl in *. lia.
    + exists v. split; [reflexivity |]. simpl in *. lia.
    + exists v. split; [reflexivity |]. simpl in *. lia.
  - intros Hb.
    destruct Hcases as [[-> ->] | [[-> ->] | [[-> ->] | [[-> ->] | [[-> ->] |
                       [[-> ->] | [-> ->]]]]]]];
      unfold readValue, includes; simpl;
      unfold readInt8, readUInt16BE, readUInt32BE, readBigUInt64BE;
      rewrite readUIntBE_out by (right; lia); reflexivity.
Qed.

Lemma readValue_integer_widths_witness :
  0 <= 1
  /\ readValue [x00; x01; x02; x03] 1 3 = Ok (VNumber 66051, 4)
  /\ readValue [x00; x01; x02; x03] 1 4 = Throw RangeError.
Proof.
  destruct (readValue_integer_widths [x00; x01; x02; x03] 1 3 3%nat) as [H3 _];
    [lia | set_solver |].
  destruct (readValue_integer_widths [x00; x01; x02; x03] 1 4 4%nat) as [_ H4];
    [lia | set_solver |].
  split; [lia |]. split.
  - destruct H3 as (n & Hn & _); [vm_compute; discriminate |].
    clear Hn. vm_compute. reflexivity.
  - apply H4. vm_compute. reflexivity.
Defined.

(** ** Keys of a decoded record *)

Lemma readValues_dom (buffer : Buffer) (serialType : gmap JSString Z)
    (columns : list JSString) :
  forall cursor (record out : Row),
    readValues buffer columns cursor serialType record = Ok out ->
    dom out = list_to_set columns ∪ dom record.
Proof.
  induction columns as [| column rest IH]; intros cursor record out; simpl.
  - intros H. injection H as <-. rewrite (left_id_L ∅ (∪)). reflexivity.
  - destruct (serialType !! column) as [t |]; [| discriminate].
    destruct (readValue buffer cursor t) as [[value newCursor] | e];
      [simpl | discriminate].
    intros H. apply IH in H. rewrite H, dom_insert_L.
    rewrite (assoc_L (∪)), (comm_L (∪) (list_to_set rest)). reflexivity.
Qed.

Lemma parseRecord_dom (buffer : Buffer) (columns : list JSString) (record : Row) :
  parseRecord buffer columns = Ok record -> dom record = list_to_set columns.
Proof.
  unfold parseRecord.
  destruct (readVarInt buffer 0) as [[headerSize bytesRead] | e];
    [simpl | discriminate].
  destruct (readSerialTypes buffer columns bytesRead ∅)
    as [[cursor serialType] | e]; [simpl | discriminate].
  intros H. apply readValues_dom in H.
  rewrite H, dom_empty_L. apply (right_id_L ∅ (∪)).
Qed.

(** The record that [parseRecord] returns has exactly the given columns as
    keys: a column that was not asked for reads as [undefined], and with
    distinct column names the record has as many entries as there are
    columns. *)
Theorem parseRecord_keys (buffer : Buffer) (columns : list JSString)
    (record : Row) :
  parseRecord buffer columns = Ok record ->
  dom record = list_to_set columns
  /\ (forall c, c ∉ columns -> mapGet record c = VUndefined)
  /\ (NoDup columns -> size record = length columns).
Proof.
  intros H. pose proof (parseRecord_dom _ _ _ H) as Hdom.
  split; [exact Hdom |]. split.
  - intros c Hc. unfold mapGet.
    rewrite (not_elem_of_dom_1 record c); [reflexivity |].
    rewrite Hdom. rewrite elem_of_list_to_set. exact Hc.
  - intros Hnd. rewrite <- size_dom, Hdom. apply size_list_to_set. exact Hnd.
Qed.

Lemma parseRecord_keys_witness :
  parseRecord (Demo.rowRecord 10) Demo.columns
  = Ok (<[js "v" := VNumber 10]> (<[js "id" := VNull]> ∅))
  /\ mapGet (<[js "v" := VNumber 10]> (<[js "id" := VNull]> ∅)) (js "name")
     = VUndefined.
Proof.
  assert (H : parseRecord (Demo.rowRecord 10) Demo.columns
              = Ok (<[js "v" := VNumber 10]> (<[js "id" := VNull]> ∅)))
    by (vm_compute; reflexivity).
  split; [exact H |].
  apply (proj1 (proj2 (parseRecord_keys _ _ _ H))).
  unfold Demo.columns. intros Hin.
  apply elem_of_cons in Hin as [Hin | Hin]; [vm_compute in Hin; discriminate |].
  apply elem_of_cons in Hin as [Hin | Hin]; [vm_compute in Hin; discriminate |].
  apply elem_of_nil in Hin. exact Hin.
Defined.

(** ** Cells of a page *)

Lemma leafLoop_cells (buffer : Buffer) (columns : list JSString)
    (identityColumn : option JSString) (n : nat) :
  forall cursor rows out,
    leafLoop n 13 buffer columns identityColumn cursor rows = Ok out ->
    exists new,
      out = rows ++ new /\ length new = n
      /\ forall (i : nat) row,
           new !! i = Some row ->
           exists cellPointer record rowId decoded,
             readUInt16BE buffer (cursor + 2 * Z.of_nat i) = Ok cellPointer
             /\ readCell 13 buffer cellPointer = Ok (record, rowId)
             /\ parseRecord record columns = Ok decoded
             /\ row = match identityColumn with
                      | Some c =>
                          if truthy identityColumn then <[c := rowId]> decoded
                          else decoded
                      | None => decoded
                      end.
Proof.
  induction n as [| n IH]; intros cursor rows out; simpl.
  - intros H. injection H as <-. exists []. rewrite app_nil_r.
    repeat split. intros i row Hi. discriminate.
  - destruct (readUInt16BE buffer cursor) as [cellPointer | e] eqn:Hptr;
      [simpl | discriminate].
    destruct (readCell 13 buffer cellPointer) as [[record rowId] | e] eqn:Hcell;
      [simpl | discriminate].
    destruct (parseRecord record columns) as [decoded | e] eqn:Hrec;
      [simpl | discriminate].
    intros H. apply IH in H. destruct H as (new & -> & Hlen & Hnew).
    eexists (_ :: new). split; [rewrite <- app_assoc; reflexivity |].
    split; [simpl; lia |].
    intros [| i] row Hi.
    + injection Hi as <-. exists cellPointer, record, rowId, decoded.
      replace (cursor + 2 * Z.of_nat 0) with cursor by lia.
      repeat split; assumption.
    + simpl in Hi. destruct (Hnew i row Hi) as (cp & rec & rid & dec & H1 & H2).
      exists cp, rec, rid, dec.
      replace (cursor + 2 * Z.of_nat (S i)) with (cursor + 2 + 2 * Z.of_nat i) by lia.
      split; assumption.
Qed.

(** A leaf page with [numberOfCells] cells yields exactly that many rows, in
    the order of the cell pointer array: row [i] is the decoded record of the
    cell at the [i]-th cell pointer (read at offset [8 + 2 i]), with the
    identity column, when one is given, set to the row id of the cell.  A
    cell that cannot be decoded makes the whole page fail. *)
Theorem parseTableLeafPage_rows (numberOfCells : Z) (buffer : Buffer)
    (columns : list JSString) (identityColumn : option JSString)
    (rows : list Row) :
  parseTableLeafPage 13 numberOfCells buffer columns identityColumn = Ok rows ->
  length rows = Z.to_nat numberOfCells
  /\ forall (i : nat) row,
       rows !! i = Some row ->
       exists cellPointer record rowId decoded,
         readUInt16BE buffer (8 + 2 * Z.of_nat i) = Ok cellPointer
         /\ readCell 13 buffer cellPointer = Ok (record, rowId)
         /\ parseRecord record columns = Ok decoded
         /\ row = match identityColumn with
                  | Some c =>
                      if truthy identityColumn then <[c := rowId]> decoded
                      else decoded
                  | None => decoded
                  end.
Proof.
  unfold parseTableLeafPage. simpl. intros H.
  apply leafLoop_cells in H. destruct H as (new & -> & Hlen & Hnew).
  split; [exact Hlen | exact Hnew].
Qed.

Lemma parseTableLeafPage_rows_witness :
  parseTableLeafPage 13 2 Demo.page3 Demo.columns None
  = Ok [<[js "v" := VNumber 10]> (<[js "id" := VNull]> ∅);
        <[js "v" := VNumber 20]> (<[js "id" := VNull]> ∅)]
  /\ length [<[js "v" := VNumber 10]> (<[js "id" := VNull]> (∅ : Row));
             <[js "v" := VNumber 20]> (<[js "id" := VNull]> ∅)]
     = Z.to_nat 2.
Proof.
  assert (H : parseTableLeafPage 13 2 Demo.page3 Demo.columns None
              = Ok [<[js "v" := VNumber 10]> (<[js "id" := VNull]> ∅);
                    <[js "v" := VNumber 20]> (<[js "id" := VNull]> ∅)])
    by (vm_compute; reflexivity).
  split; [exact H |].
  exact (proj1 (parseTableLeafPage_rows _ _ _ _ _ H)).
Defined.

Lemma interiorLoop_cells (buffer : Buffer) (n : nat) :
  forall cursor children out,
    interiorLoop n buffer cursor children = Ok out ->
    exists new,
      out = children ++ new /\ length new = n
      /\ forall (i : nat) child,
           new !! i = Some child ->
           exists cellPointer,
             readUInt16BE buffer (cursor + 2 * Z.of_nat i) = Ok cellPointer
             /\ readUInt32BE buffer cellPointer = Ok child
             /\ 0 <= child < 4294967296.
Proof.
  induction n as [| n IH]; intros cursor children out; simpl.
  - intros H. injection H as <-. exists []. rewrite app_nil_r.
    repeat split. intros i child Hi. discriminate.
  - destruct (readUInt16BE buffer cursor) as [cellPointer | e] eqn:Hptr;
      [simpl | discriminate].
    destruct (readUInt32BE buffer cellPointer) as [child0 | e] eqn:Hchild;
      [simpl | discriminate].
    intros H. apply IH in H. destruct H as (new & -> & Hlen & Hnew).
    exists (child0 :: new). split; [rewrite <- app_assoc; reflexivity |].
    split; [simpl; lia |].
    intros [| i] child Hi.
    + injection Hi as <-. exists cellPointer.
      replace (cursor + 2 * Z.of_nat 0) with cursor by lia.
      split; [assumption |]. split; [assumption |].
      apply (readUIntBE_range _ _ _ _ Hchild).
    + simpl in Hi. destruct (Hnew i child Hi) as (cp & H1 & H2).
      exists cp.
      replace (cursor + 2 * Z.of_nat (S i)) with (cursor + 2 + 2 * Z.of_nat i) by lia.
      split; assumption.
Qed.

(** An interior page with [numberOfCells] cells yields exactly that many
    child pointers, in the order of the cell pointer array: child [i] is the
    32-bit big-endian number at the [i]-th cell pointer (read at offset
    [12 + 2 i]). *)
Theorem parseTableInteriorPage_children (numberOfCells : Z) (buffer : Buffer)
    (children : list Z) :
  parseTableInteriorPage 5 numberOfCells buffer = Ok children ->
  length children = Z.to_nat numberOfCells
  /\ forall (i : nat) child,
       children !! i = Some child ->
       exists cellPointer,
         readUInt16BE buffer (12 + 2 * Z.of_nat i) = Ok cellPointer
         /\ readUInt32BE buffer cellPointer = Ok child
         /\ 0 <= child < 4294967296.
Proof.
  unfold parseTableInteriorPage. simpl. intros H.
  apply interiorLoop_cells in H. destruct H as (new & -> & Hlen & Hnew).
  split; [exact Hlen | exact Hnew].
Qed.

Lemma parseTableInteriorPage_children_witness :
  parseTableInteriorPage 5 3 Demo.interior3 = Ok [3; 4; 5]
  /\ length [3; 4; 5] = Z.to_nat 3.
Proof.
  assert (H : parseTableInteriorPage 5 3 Demo.interior3 = Ok [3; 4; 5])
    by (vm_compute; reflexivity).
  split; [exact H |].
  exact (proj1 (parseTableInteriorPage_children _ _ _ H)).
Defined.

(** ** The scan of an interior page in general *)

Section ScanLaws.

Variable fileHandle : FileHandle.
Variable pageSize : Z.
Variable columns : list JSString.
Variable identityColumn : option JSString.

Local Abbreviation scanned := (scans fileHandle pageSize columns identityColumn).
Local Notation "'scanWith' fuel page" :=
  (readTableRows fuel fileHandle page pageSize columns identityColumn)
  (at level 10, fuel at level 9, page at level 9, only parsing).







End ScanLaws.




(** A page that is neither a table leaf nor a table interior page ends the
    scan with the unknown-page-type error; this includes the index page
    types 10 and 2, for which [getPageHeaderSize] has a header size. *)
Theorem scan_rejects_other_pages (fuel : nat) (fileHandle : FileHandle)
    (page pageSize : Z) (columns : list JSString) (identityColumn : option JSString)
    (buffer : Buffer) (pageType numberOfCells : Z) (rightMostPointer : option Z) :
  fh_read fileHandle pageSize ((page - 1) * pageSize) = Ok buffer ->
  readPageHeader buffer = Ok (pageType, numberOfCells, rightMostPointer) ->
  pageType <> 13 -> pageType <> 5 ->
  readTableRows (S fuel) fileHandle page pageSize columns identityColumn
  = Some (Throw (UnknownPageType pageType))
  /\ forall rows, ~ scans fileHandle pageSize columns identityColumn page rows.
Proof.
  intros Hread Hhead H13 H5.
  assert (Hstep : forall f,
            readTableRows (S f) fileHandle page pageSize columns identityColumn
            = Some (Throw (UnknownPageType pageType))).
  { intros f. simpl. rewrite Hread. simpl. rewrite Hhead. simpl.
    decide_tests. reflexivity. }
  split; [apply Hstep |].
  intros rows [[| f] H]; [discriminate |]. rewrite Hstep in H. discriminate.
Qed.

Lemma scan_rejects_other_pages_witness :
  getPageHeaderSize 10 = Ok 8
  /\ readTableRows 1 (fileOf Files.indexRoot) 2 512 Demo.columns (Some (js "id"))
     = Some (Throw (UnknownPageType 10)).
Proof.
  split; [reflexivity |].
  apply (scan_rejects_other_pages 0 (fileOf Files.indexRoot) 2 512 Demo.columns
           (Some (js "id")) (Demo.pageOf 512 [] 10 [] []) 10 0 None).
  - vm_compute. reflexivity.
  - vm_compute. reflexivity.
  - discriminate.
  - discriminate.
Defined.

(** ** The filter as an operation on row sequences *)

Lemma filter_idem {A} (f : A -> bool) (l : list A) :
  List.filter f (List.filter f l) = List.filter f l.
Proof.
  induction l as [| x l IH]; [reflexivity |].
  simpl. destruct (f x) eqn:E; [simpl; rewrite E, IH; reflexivity | exact IH].
Qed.

Lemma filter_comm {A} (f g : A -> bool) (l : list A) :
  List.filter f (List.filter g l) = List.filter g (List.filter f l).
Proof.
  induction l as [| x l IH]; [reflexivity |].
  simpl. destruct (g x) eqn:Eg, (f x) eqn:Ef; simpl; rewrite ?Eg, ?Ef, IH;
    reflexivity.
Qed.

(** The filter works row by row: it distributes over the concatenation of
    row sequences, filtering twice is filtering once, two filters can be
    applied in either order, the result keeps the order of the rows it
    retains, and only the first pair of the where clause is looked at. *)
Theorem applyFilter_laws (rows rows' : list Row)
    (whereClause whereClause' : list (JSString * Literal)) :
  applyFilter (rows ++ rows') whereClause
  = applyFilter rows whereClause ++ applyFilter rows' whereClause
  /\ applyFilter (applyFilter rows whereClause) whereClause
     = applyFilter rows whereClause
  /\ applyFilter (applyFilter rows whereClause) whereClause'
     = applyFilter (applyFilter rows whereClause') whereClause
  /\ sublist (applyFilter rows whereClause) rows
  /\ (forall clause, applyFilter rows (clause :: whereClause)
                     = applyFilter rows [clause]).
Proof.
  split; [| split; [| split; [| split]]].
  - destruct whereClause as [| [c l] rest]; simpl; [reflexivity |].
    apply List.filter_app.
  - destruct whereClause as [| [c l] rest]; simpl; [reflexivity |].
    apply filter_idem.
  - destruct whereClause as [| [c l] rest], whereClause' as [| [c' l'] rest'];
      simpl; try reflexivity. apply filter_comm.
  - destruct whereClause as [| [c l] rest]; simpl; [reflexivity |].
    rewrite filter_strictEq. apply sublist_filter.
  - intros [c l]. reflexivity.
Qed.

(** ** Cells *)

Lemma subarray_length_le (buffer : Buffer) (start size : Z) :
  0 <= size -> blen (subarray buffer start (start + size)) <= size.
Proof.
  intros Hsize. unfold subarray, clampIndex, blen.
  rewrite length_take, length_drop.
  destruct (Z.ltb_spec start 0), (Z.ltb_spec (start + size) 0); lia.
Qed.

(** The two parts of a cell.  On the table page types 13 and 5 the row id
    is a number; on every other page type no row id is read and it is
    [undefined].  The record is never longer than the record size that the
    cell declares; it is shorter when the buffer ends before (a payload that
    continues on overflow pages is cut off). *)
Theorem readCell_parts (pageType : Z) (buffer : Buffer) (cellPointer : Z)
    (record : Buffer) (rowId : Value) :
  readCell pageType buffer cellPointer = Ok (record, rowId) ->
  (pageType = 13 \/ pageType = 5 -> exists n, rowId = VNumber n)
  /\ (pageType <> 13 -> pageType <> 5 -> rowId = VUndefined)
  /\ exists recordSize bytesRead,
       readVarInt buffer cellPointer = Ok (recordSize, bytesRead)
       /\ (0 <= recordSize -> blen record <= recordSize).
Proof.
  unfold readCell.
  destruct (readVarInt buffer cellPointer) as [[recordSize bytesRead] | e];
    [simpl | discriminate].
  destruct ((pageType =? 13) || (pageType =? 5)) eqn:Etype.
  - destruct (readVarInt buffer (cellPointer + bytesRead)) as [[value n] | e];
      [simpl | discriminate].
    intros H. injection H as <- <-. split; [| split].
    + intros _. eexists. reflexivity.
    + intros H13 H5. revert Etype. decide_tests; try discriminate.
    + exists recordSize, bytesRead. split; [reflexivity |].
      apply subarray_length_le.
  - simpl. intros H. injection H as <- <-. split; [| split].
    + intros [-> | ->]; discriminate.
    + reflexivity.
    + exists recordSize, bytesRead. split; [reflexivity |].
      apply subarray_length_le.
Qed.

Lemma readCell_parts_witness :
  readCell 10 Demo.page3 500 = Ok (Demo.bytesOf [1; 3; 0; 1], VUndefined)
  /\ readCell 13 Demo.page3 500 = Ok (Demo.rowRecord 10, VNumber 1).
Proof.
  assert (H10 : readCell 10 Demo.page3 500 = Ok (Demo.bytesOf [1; 3; 0; 1], VUndefined))
    by (vm_compute; reflexivity).
  assert (H13 : exists record rowId, readCell 13 Demo.page3 500 = Ok (record, rowId))
    by (eexists; eexists; vm_compute; reflexivity).
  split; [exact H10 |].
  destruct H13 as (record & rowId & H13).
  destruct (readCell_parts _ _ _ _ _ H13) as ([n Hn] & _ & _);
    [left; reflexivity |].
  vm_compute. reflexivity.
Defined.

(** ** The file header and the catalog *)

(** The header fields are unsigned: the page size is below 65536 and the
    page count below 2^32, and the read must have at least 32 bytes.  The
    page size is taken as stored. *)
Theorem readDatabaseHeader_range (fileHandle : FileHandle)
    (pageSize numberOfPages : Z) :
  readDatabaseHeader fileHandle = Ok (pageSize, numberOfPages) ->
  0 <= pageSize < 65536
  /\ 0 <= numberOfPages < 4294967296
  /\ exists buffer,
       fh_read fileHandle 100 0 = Ok buffer /\ 32 <= blen buffer
       /\ readUInt16BE buffer 16 = Ok pageSize
       /\ readUInt32BE buffer 28 = Ok numberOfPages.
Proof.
  unfold readDatabaseHeader.
  destruct (fh_read fileHandle 100 0) as [buffer | e]; [simpl | discriminate].
  destruct (readUInt16BE buffer 16) as [ps | e] eqn:Hps; [simpl | discriminate].
  destruct (readUInt32BE buffer 28) as [np | e] eqn:Hnp; [simpl | discriminate].
  intros H. injection H as <- <-.
  split; [apply (readUIntBE_range _ _ _ _ Hps) |].
  split; [apply (readUIntBE_range _ _ _ _ Hnp) |].
  exists buffer. repeat split; try assumption.
  revert Hnp. unfold readUInt32BE, readUIntBE, inBounds. simpl.
  destruct (Z.leb_spec (28 + Z.of_nat 4) (blen buffer)); [lia | discriminate].
Qed.

Lemma readDatabaseHeader_range_witness :
  readDatabaseHeader (fileOf Demo.database) = Ok (512, 4) /\ 0 <= 512 < 65536.
Proof.
  assert (H : readDatabaseHeader (fileOf Demo.database) = Ok (512, 4))
    by (vm_compute; reflexivity).
  split; [exact H |].
  exact (proj1 (readDatabaseHeader_range _ _ _ H)).
Defined.

Lemma schemaLoop_tables (pageType : Z) (buffer : Buffer) (n : nat) :
  forall cursor tables out,
    schemaLoop n pageType buffer cursor tables = Ok out ->
    exists new,
      out = tables ++ new /\ length new = n
      /\ Forall (fun table : Row =>
                   dom table
                   = list_to_set [js "schemaType"; js "schemaName"; js "tableName";
                                  js "rootPage"; js "schemaBody"]) new.
Proof.
  induction n as [| n IH]; intros cursor tables out; simpl.
  - intros H. injection H as <-. exists []. rewrite app_nil_r.
    repeat split. constructor.
  - destruct (readUInt16BE buffer cursor) as [cellPointer | e];
      [simpl | discriminate].
    destruct (readCell pageType buffer cellPointer) as [[record rowId] | e];
      [simpl | discriminate].
    destruct (parseTableSchema record) as [table | e] eqn:Htable;
      [simpl | discriminate].
    intros H. apply IH in H. destruct H as (new & -> & Hlen & Hnew).
    exists (table :: new). split; [rewrite <- app_assoc; reflexivity |].
    split; [simpl; lia |].
    constructor; [| exact Hnew]. apply (parseRecord_dom _ _ _ Htable).
Qed.

Lemma readTableSchemas_count (fileHandle : FileHandle) (pageSize : Z)
    (tables : list Row) :
  readTableSchemas fileHandle pageSize = Ok tables ->
  exists buffer numberOfCells,
    fh_read fileHandle pageSize 0 = Ok buffer
    /\ readUInt16BE buffer 103 = Ok numberOfCells
    /\ Z.of_nat (length tables) = numberOfCells
    /\ Forall (fun table : Row =>
                 dom table
                 = list_to_set [js "schemaType"; js "schemaName"; js "tableName";
                                js "rootPage"; js "schemaBody"]) tables.
Proof.
  unfold readTableSchemas.
  destruct (fh_read fileHandle pageSize 0) as [buffer | e]; [simpl | discriminate].
  destruct (readInt8 buffer 100) as [pageType | e]; [simpl | discriminate].
  destruct (readUInt16BE buffer (3 + 100)) as [numberOfCells | e] eqn:Hn;
    [simpl | discriminate].
  destruct (getPageHeaderSize pageType) as [size | e]; [simpl | discriminate].
  intros H. apply schemaLoop_tables in H. destruct H as (new & -> & Hlen & Hnew).
  exists buffer, numberOfCells. split; [reflexivity |].
  split; [exact Hn |]. split; [| exact Hnew].
  simpl. rewrite Hlen. pose proof (readUIntBE_nonneg _ _ _ _ Hn). lia.
Qed.

(** The catalog has one entry per cell of the catalog page (the cell count
    is read at offset 103 of the first page, behind the 100-byte file
    header), and every entry has exactly the five catalog keys. *)
Theorem readTableSchemas_entries (fileHandle : FileHandle) (pageSize : Z)
    (tables : list Row) :
  readTableSchemas fileHandle pageSize = Ok tables ->
  exists buffer numberOfCells,
    fh_read fileHandle pageSize 0 = Ok buffer
    /\ readUInt16BE buffer 103 = Ok numberOfCells
    /\ Z.of_nat (length tables) = numberOfCells
    /\ Forall (fun table : Row =>
                 dom table
                 = list_to_set [js "schemaType"; js "schemaName"; js "tableName";
                                js "rootPage"; js "schemaBody"]) tables.
Proof.
  unfold readTableSchemas.
  destruct (fh_read fileHandle pageSize 0) as [buffer | e]; [simpl | discriminate].
  destruct (readInt8 buffer 100) as [pageType | e]; [simpl | discriminate].
  destruct (readUInt16BE buffer (3 + 100)) as [numberOfCells | e] eqn:Hn;
    [simpl | discriminate].
  destruct (getPageHeaderSize pageType) as [size | e]; [simpl | discriminate].
  intros H. apply schemaLoop_tables in H. destruct H as (new & -> & Hlen & Hnew).
  exists buffer, numberOfCells. split; [reflexivity |].
  split; [exact Hn |]. split; [| exact Hnew].
  simpl. rewrite Hlen. pose proof (readUIntBE_nonneg _ _ _ _ Hn). lia.
Qed.

Lemma readTableSchemas_entries_witness :
  exists tables,
    readTableSchemas (fileOf Demo.database) 512 = Ok tables
    /\ Z.of_nat (length tables) = 1.
Proof.
  assert (H : exists tables, readTableSchemas (fileOf Demo.database) 512 = Ok tables)
    by (eexists; vm_compute; reflexivity).
  destruct H as [tables H]. exists tables. split; [exact H |].
  destruct (readTableSchemas_entries _ _ _ H) as (buffer & n & Hread & Hn & Hlen & _).
  rewrite Hlen.
  assert (Hb : fh_read (fileOf Demo.database) 512 0 = Ok Demo.page1)
    by (vm_compute; reflexivity).
  rewrite Hb in Hread. injection Hread as <-.
  assert (H1 : readUInt16BE Demo.page1 103 = Ok 1) by (vm_compute; reflexivity).
  rewrite H1 in Hn. injection Hn as <-. reflexivity.
Defined.

(** ** The commands of [main] *)

Lemma startsWithSelect_not_dot (command : JSString) :
  startsWithSelect command = true ->
  command <> js ".dbinfo" /\ command <> js ".tables".
Proof.
  intros H. split; intros ->; vm_compute in H; discriminate.
Qed.

Section Commands.

Variable parseSelectCommand : JSString -> result Query.
Variable parseColumns : Value -> result (list JSString * option JSString).
Variable toNumber : Value -> result Z.

(** A command that is not [.dbinfo], not [.tables] and does not start with
    SELECT is a silent no-op, provided the file opens and its header and
    catalog can be read (they are read before the command is looked at):
    nothing is printed and the exit status is 0. *)
Theorem main_other_command_noop (fuel : nat)
    (openFile : JSString -> result FileHandle) (file command : JSString)
    (fileHandle : FileHandle) (pageSize numberOfPages : Z) (tables : list Row) :
  openFile file = Ok fileHandle ->
  fh_close fileHandle = Ok tt ->
  readDatabaseHeader fileHandle = Ok (pageSize, numberOfPages) ->
  readTableSchemas fileHandle pageSize = Ok tables ->
  command <> js ".dbinfo" -> command <> js ".tables" ->
  startsWithSelect command = false ->
  main parseSelectCommand parseColumns toNumber fuel openFile
    (Some file) (Some command)
  = Some (mkProcess [] [] 0).
Proof.
  intros Hopen Hclose Hhead Hschema Hinfo Htables Hselect.
  unfold main, runCommand. rewrite Hopen, Hhead. cbn [bind]. rewrite Hschema. cbn [bind].
  rewrite !bool_decide_eq_false_2 by assumption.
  rewrite Hselect, Hclose. reflexivity.
Qed.

(** [.dbinfo] prints the page size as stored in the file header and, as
    the number of tables, the number of cells of the catalog page: every
    catalog entry counts, whatever its kind. *)
Theorem main_dbinfo (fuel : nat)
    (openFile : JSString -> result FileHandle) (file : JSString)
    (fileHandle : FileHandle) (pageSize numberOfPages : Z) (tables : list Row) :
  openFile file = Ok fileHandle ->
  fh_close fileHandle = Ok tt ->
  readDatabaseHeader fileHandle = Ok (pageSize, numberOfPages) ->
  readTableSchemas fileHandle pageSize = Ok tables ->
  exists buffer numberOfCells,
    fh_read fileHandle pageSize 0 = Ok buffer
    /\ readUInt16BE buffer 103 = Ok numberOfCells
    /\ main parseSelectCommand parseColumns toNumber fuel openFile
         (Some file) (Some (js ".dbinfo"))
       = Some (mkProcess [js "database page size: " ++ decimal pageSize;
                          js "number of tables: " ++ decimal numberOfCells] [] 0).
Proof.
  intros Hopen Hclose Hhead Hschema.
  destruct (readTableSchemas_count _ _ _ Hschema)
    as (buffer & numberOfCells & Hread & Hn & Hlen & _).
  exists buffer, numberOfCells. split; [exact Hread |]. split; [exact Hn |].
  unfold main, runCommand. rewrite Hopen, Hhead. cbn [bind]. rewrite Hschema. cbn [bind].
  rewrite bool_decide_eq_true_2 by reflexivity.
  rewrite Hclose, Hlen. reflexivity.
Qed.

(** [SELECT count( * )] without a where clause prints the number of rows
    that the scan of the table returns, and nothing else. *)
Theorem main_count_unfiltered (fuel : nat)
    (openFile : JSString -> result FileHandle) (file command : JSString)
    (fileHandle : FileHandle) (pageSize numberOfPages : Z) (tables : list Row)
    (query : Query) (others : list JSString) (table : Row)
    (columns : list JSString) (identityColumn : option JSString) (page : Z)
    (rows : list Row) :
  openFile file = Ok fileHandle ->
  fh_close fileHandle = Ok tt ->
  readDatabaseHeader fileHandle = Ok (pageSize, numberOfPages) ->
  readTableSchemas fileHandle pageSize = Ok tables ->
  startsWithSelect command = true ->
  parseSelectCommand command = Ok query ->
  queryColumns query = js "count(*)" :: others ->
  whereClause query = [] ->
  List.find (fun table =>
               strictEq (mapGet table (js "tableName"))
                        (LString (queryTableName query))) tables
  = Some table ->
  parseColumns (mapGet table (js "schemaBody")) = Ok (columns, identityColumn) ->
  pageNumber toNumber (mapGet table (js "rootPage")) = Ok page ->
  readTableRows fuel fileHandle page pageSize columns identityColumn
  = Some (Ok rows) ->
  main parseSelectCommand parseColumns toNumber fuel openFile
    (Some file) (Some command)
  = Some (mkProcess [decimal (Z.of_nat (length rows))] [] 0).
Proof.
  intros Hopen Hclose Hhead Hschema Hselect Hparse Hcols Hwhere Hfind Hcolumns
    Hpage Hscan.
  destruct (startsWithSelect_not_dot _ Hselect) as [Hinfo Htables].
  unfold main, runCommand. rewrite Hopen, Hhead. cbn [bind]. rewrite Hschema. cbn [bind].
  rewrite !bool_decide_eq_false_2 by assumption.
  rewrite Hselect. unfold handleSelectCommand.
  rewrite Hparse, Hfind, Hcolumns. cbn [bind]. rewrite Hpage. cbn [bind].
  rewrite Hscan, Hcols, Hwhere.
  rewrite bool_decide_eq_true_2 by reflexivity.
  cbn [applyFilter]. rewrite Hclose. reflexivity.
Qed.

End Commands.

Lemma demo_header : readDatabaseHeader (fileOf Demo.database) = Ok (512, 4).
Proof. vm_compute. reflexivity. Qed.

Lemma demo_schemas :
  readTableSchemas (fileOf Demo.database) 512 = Ok Files.demoTables.
Proof. vm_compute. reflexivity. Qed.

Lemma main_other_command_noop_witness :
  Demo.run (js "demo.db") (js "hello") = Some (mkProcess [] [] 0).
Proof.
  apply (main_other_command_noop Demo.parseSelectCommand Demo.parseColumns
           Demo.toNumber 3 Demo.openFile (js "demo.db") (js "hello")
           (fileOf Demo.database) 512 4 Files.demoTables).
  - reflexivity.
  - reflexivity.
  - exact demo_header.
  - exact demo_schemas.
  - discriminate.
  - discriminate.
  - reflexivity.
Defined.

Lemma main_dbinfo_witness :
  exists buffer numberOfCells,
    fh_read (fileOf Demo.database) 512 0 = Ok buffer
    /\ readUInt16BE buffer 103 = Ok numberOfCells
    /\ Demo.run (js "demo.db") (js ".dbinfo")
       = Some (mkProcess [js "database page size: " ++ decimal 512;
                          js "number of tables: " ++ decimal numberOfCells] [] 0).
Proof.
  apply (main_dbinfo Demo.parseSelectCommand Demo.parseColumns Demo.toNumber 3
           Demo.openFile (js "demo.db") (fileOf Demo.database) 512 4
           Files.demoTables).
  - reflexivity.
  - reflexivity.
  - exact demo_header.
  - exact demo_schemas.
Defined.

Lemma main_count_unfiltered_witness :
  Demo.run (js "demo.db") (Demo.countFrom "t")
  = Some (mkProcess [decimal (Z.of_nat (length [Demo.row 1 10; Demo.row 2 20]))] [] 0).
Proof.
  apply (main_count_unfiltered Demo.parseSelectCommand Demo.parseColumns
           Demo.toNumber 3 Demo.openFile (js "demo.db") (Demo.countFrom "t")
           (fileOf Demo.database) 512 4 Files.demoTables
           (mkQuery [js "count(*)"] (js "t") []) []
           (default ∅ (head Files.demoTables)) Demo.columns (Some (js "id")) 2).
  - reflexivity.
  - reflexivity.
  - exact demo_header.
  - exact demo_schemas.
  - vm_compute. reflexivity.
  - vm_compute. reflexivity.
  - reflexivity.
  - reflexivity.
  - vm_compute. reflexivity.
  - reflexivity.
  - vm_compute. reflexivity.
  - vm_compute. reflexivity.
Defined.

Lemma handleSelectCommand_not_found_witness :
  handleSelectCommand Demo.parseSelectCommand Demo.parseColumns Demo.toNumber 3
    (Demo.countFrom "missing") (fileOf Demo.database) 512 Files.demoTables
  = Some (Throw (TableNotFound (js "missing"))).
Proof.
  apply (handleSelectCommand_not_found Demo.parseSelectCommand Demo.parseColumns
           Demo.toNumber 3 (Demo.countFrom "missing") (fileOf Demo.database) 512
           Files.demoTables (mkQuery [js "count(*)"] (js "missing") [])).
  - vm_compute. reflexivity.
  - replace Files.demoTables with [default (∅ : Row) (head Files.demoTables)]
      by (vm_compute; reflexivity).
    constructor; [| constructor]. vm_compute. discriminate.
Defined.

Lemma main_exit_status_witness :
  main Demo.parseSelectCommand Demo.parseColumns Demo.toNumber 3 Files.openStuck
    (Some (js "demo.db")) (Some (js ".tables"))
  = Some (mkProcess [js "t"] [IOError 5] 1)
  /\ exists file fileHandle e,
       Some (js "demo.db") = Some file /\ Files.openStuck file = Ok fileHandle
       /\ fh_close fileHandle = Throw e.
Proof.
  assert (H : main Demo.parseSelectCommand Demo.parseColumns Demo.toNumber 3
                Files.openStuck (Some (js "demo.db")) (Some (js ".tables"))
              = Some (mkProcess [js "t"] [IOError 5] 1))
    by (vm_compute; reflexivity).
  split; [exact H |].
  apply (main_exit_status _ _ _ _ _ _ _ _ H). simpl. discriminate.
Defined.

(** ** The table list does not depend on the order of the catalog *)

Lemma stringLt_antisym (a : JSString) :
  forall b, stringLt a b = false -> stringLt b a = false -> a = b.
Proof.
  induction a as [| x a IH]; intros [| y b]; simpl; try congruence.
  decide_tests; try congruence.
  intros H1 H2. assert (x = y) as -> by lia. f_equal. apply IH; assumption.
Qed.

(** When every table name of the catalog is a text, the output of
    [.tables] is the same for every order of the catalog entries. *)
Theorem tables_output_order (tables tables' : list Row) :
  tables ≡ₚ tables' ->
  Forall (fun table => exists s, mapGet table (js "tableName") = VString s) tables ->
  filterAndFormatListOfTables tables = filterAndFormatListOfTables tables'.
Proof.
  intros Hperm Htext. unfold filterAndFormatListOfTables. f_equal.
  rewrite !filter_not_name.
  set (name := fun table : Row => mapGet table (js "tableName")).
  set (keep := fun v : Value => v <> VString (js "sqlite_sequence")).
  assert (Hnames : forall v, v ∈ map name tables -> exists s, v = VString s).
  { intros v Hv. apply list_elem_of_fmap in Hv. destruct Hv as (table & -> & Hin).
    rewrite Forall_forall in Htext. apply Htext. exact Hin. }
  assert (Hp : filter keep (map name tables) ≡ₚ filter keep (map name tables')).
  { apply filter_Permutation. apply fmap_Permutation. exact Hperm. }
  apply (StronglySorted_unique_strong (fun x y => sortLe x y = true)).
  - intros x y Hx Hy Hxy Hyx.
    rewrite sort_perm in Hx. apply list_elem_of_filter in Hx as [_ Hx].
    rewrite sort_perm, <- Hp in Hy. apply list_elem_of_filter in Hy as [_ Hy].
    destruct (Hnames _ Hx) as [a ->]. destruct (Hnames _ Hy) as [b ->].
    apply sortLe_spec in Hxy as [Hxy | (_ & _ & Hxy)]; [discriminate |].
    apply sortLe_spec in Hyx as [Hyx | (_ & _ & Hyx)]; [discriminate |].
    f_equal. apply stringLt_antisym; assumption.
  - apply sort_sorted.
  - apply sort_sorted.
  - rewrite !sort_perm. exact Hp.
Qed.

Lemma tables_output_order_witness :
  filterAndFormatListOfTables
    [ {[ js "tableName" := VString (js "t") ]};
      {[ js "tableName" := VString (js "apples") ]} ]
  = filterAndFormatListOfTables
      [ {[ js "tableName" := VString (js "apples") ]};
        {[ js "tableName" := VString (js "t") ]} ].
Proof.
  apply tables_output_order.
  - apply Permutation_swap.
  - repeat constructor; eexists; vm_compute; reflexivity.
Defined.
